(** * remix-bunjs: the authentication service

    A shallow embedding of [app/services/auth-service.ts] together with the
    pieces it rests on: the result types of [app/lib/types.ts], the tables of
    [db/schema.ts], and the calls it makes into drizzle-orm, lucia, oslo and
    the Bun runtime.

    Every method of [AuthService] is [async]; it is embedded as a function
    from a [World] (database, clock, entropy source) to a settled promise and
    the world it leaves behind.  A rejected promise is an exception thrown by
    a store call (a violated PRIMARY KEY or UNIQUE constraint) or by the
    runtime (an empty password handed to [Bun.password.hash]); the writes
    made before the rejection stay in the world, as the source opens no
    transaction. *)

From Stdlib Require Import ZArith List String Ascii Bool Lia.
Import ListNotations.
Open Scope string_scope.
Open Scope Z_scope.

(** ** app/lib/types.ts *)

(** The string-literal error kinds used across [AuthServiceInterface] and
    [EmailServiceInterface].  TypeScript gives each method its own union of
    literals; at run time they are all strings, so one enumeration holds
    them and the per-method unions appear as facts about the results. *)
Inductive ErrorKind : Type :=
| user_exists
| user_not_found
| invalid_credentials
| email_send_error
| invalid_session
| invalid_code
| expired_code
| code_expired
| email_not_found.

(** [Result<T, E>]: [{ type: "success", data }] or [{ type: "failure", error }]. *)
Inductive Result (T : Type) : Type :=
| success (data : T)
| failure (error : ErrorKind).
Arguments success {T} data.
Arguments failure {T} error.

Definition is_failure {T} (r : Result T) : bool :=
  match r with
  | success _ => false
  | failure _ => true
  end.

(** ** The world the service runs in *)

Module schema.

(** [users = sqliteTable("user", ...)]; [Insert] is [$inferInsert] restricted
    to the columns the service supplies, [Row] is [$inferSelect]. *)
Module users.
Record Row : Type := {
  id : string;
  email : string;
  emailVerified : bool;
  passwordHash : string;
  createdAt : Z
}.
Record Insert : Type := {
  ins_id : string;
  ins_email : string;
  ins_passwordHash : string
}.
End users.

(** [sessions = sqliteTable("session", ...)]. *)
Module sessions.
Record Row : Type := {
  id : string;
  expiresAt : Z;
  userId : string
}.
End sessions.

(** [emailVerificationCodes = sqliteTable("email_verification_code", ...)]. *)
Module emailVerificationCodes.
Record Row : Type := {
  id : Z;
  code : string;
  userId : string;
  email : string;
  expiresAt : Z
}.
Record Insert : Type := {
  ins_userId : string;
  ins_email : string;
  ins_code : string;
  ins_expiresAt : Z
}.
End emailVerificationCodes.

(** [passwordResetTokens = sqliteTable("password_reset_token", ...)]. *)
Module passwordResetTokens.
Record Row : Type := {
  tokenHash : string;
  userId : string;
  expiresAt : Z
}.
End passwordResetTokens.

End schema.

(** The four tables of the SQLite database, each in rowid order. *)
Record Database : Type := {
  user : list schema.users.Row;
  session : list schema.sessions.Row;
  email_verification_code : list schema.emailVerificationCodes.Row;
  password_reset_token : list schema.passwordResetTokens.Row
}.

(** [now] is what [Date.now()] reads, in milliseconds; one call of the
    service runs within one tick of it.  [entropy] is the operating system's
    random source seen as the sequence of strings the generators return, and
    [drawn] counts how many have been taken.  Nothing is assumed of the
    strings drawn, neither their length nor their alphabet: what is proved
    below holds for whatever the source yields. *)
Record World : Type := {
  db : Database;
  now : Z;
  entropy : nat -> string;
  drawn : nat
}.

Definition with_db (d : Database) (w : World) : World :=
  {| db := d; now := now w; entropy := entropy w; drawn := drawn w |}.

Definition at_time (t : Z) (w : World) : World :=
  {| db := db w; now := t; entropy := entropy w; drawn := drawn w |}.

(** What a store call throws, and what the runtime throws at an argument it
    refuses. *)
Inductive Exception : Type :=
| SQLiteConstraint (table : string)
| TypeError (message : string).

Inductive Settled (A : Type) : Type :=
| Fulfilled (value : A)
| Rejected (reason : Exception).
Arguments Fulfilled {A} value.
Arguments Rejected {A} reason.

Definition Async (A : Type) : Type := World -> Settled A * World.

Definition ret {A} (a : A) : Async A := fun w => (Fulfilled a, w).

(** [throw e]. *)
Definition throw {A} (e : Exception) : Async A := fun w => (Rejected e, w).

(** [try { ... } catch (error) { ... }]. *)
Definition try_catch {A} (m : Async A) (handler : Exception -> Async A) : Async A :=
  fun w =>
    match m w with
    | (Fulfilled a, w') => (Fulfilled a, w')
    | (Rejected e, w') => handler e w'
    end.

Definition bind {A B} (m : Async A) (k : A -> Async B) : Async B :=
  fun w =>
    match m w with
    | (Fulfilled a, w') => k a w'
    | (Rejected e, w') => (Rejected e, w')
    end.

Notation "x <- 'await' m ;; k" := (bind m (fun x => k))
  (at level 61, m at next level, right associativity).
Notation "'await' m ;; k" := (bind m (fun _ => k))
  (at level 61, m at next level, right associativity).

Definition Date_now : Async Z := fun w => (Fulfilled (now w), w).

(** The next string out of the random source. *)
Definition getRandomValues : Async string :=
  fun w =>
    (Fulfilled (entropy w (drawn w)),
     {| db := db w; now := now w; entropy := entropy w; drawn := S (drawn w) |}).

(** ** oslo *)

Module oslo.

Inductive TimeSpanUnit : Type := ms | s | m | h | d | w.

Record TimeSpan : Type := { value : Z; unit : TimeSpanUnit }.

Definition milliseconds (t : TimeSpan) : Z :=
  match unit t with
  | ms => value t
  | s => value t * 1000
  | m => value t * 1000 * 60
  | h => value t * 1000 * 60 * 60
  | d => value t * 1000 * 60 * 60 * 24
  | w => value t * 1000 * 60 * 60 * 24 * 7
  end.

(** [createDate(timeSpan)]: [new Date(Date.now() + timeSpan.milliseconds())]. *)
Definition createDate (t : TimeSpan) : Async Z :=
  now_ <- await Date_now ;;
  ret (now_ + milliseconds t).

(** [isWithinExpirationDate(date)]: [Date.now() < date.getTime()]. *)
Definition isWithinExpirationDate (date : Z) : Async bool :=
  now_ <- await Date_now ;;
  ret (now_ <? date).

(** [alphabet("0-9")] and its like. *)
Definition alphabet (pattern : string) : string :=
  if String.eqb pattern "a-z" then "abcdefghijklmnopqrstuvwxyz"
  else if String.eqb pattern "A-Z" then "ABCDEFGHIJKLMNOPQRSTUVWXYZ"
  else if String.eqb pattern "0-9" then "0123456789"
  else pattern.

(** [generateRandomString(length, alphabet)]: a string drawn from the random
    source. *)
Definition generateRandomString (length : nat) (alphabet : string) : Async string :=
  getRandomValues.

End oslo.

(** ** drizzle-orm over bun:sqlite *)

Module drizzle.

(** A column of mode ["timestamp"] holds whole seconds:
    [Math.floor(date.getTime() / 1000)] on the way in, [new Date(value * 1000)]
    on the way out. *)
Definition timestamp (date : Z) : Z := date / 1000 * 1000.

(** A table of the schema: where its rows live in the database, the row that
    is stored for inserted values (column defaults, the rowid, the rounding
    of timestamps), and when a new row clashes with a stored one on a
    PRIMARY KEY or UNIQUE column.  FOREIGN KEY clauses are left out: SQLite
    checks them only under [PRAGMA foreign_keys], which the repository does
    not set. *)
Record Table (I R : Type) : Type := {
  name : string;
  from : Database -> list R;
  into : list R -> Database -> Database;
  stored : Z -> list R -> I -> R;
  clash : R -> R -> bool
}.
Arguments name {I R} _.
Arguments from {I R} _ _.
Arguments into {I R} _ _ _.
Arguments stored {I R} _ _ _ _.
Arguments clash {I R} _ _ _.

(** [eq(column, value)] on a text column. *)
Definition eq {R} (column : R -> string) (v : string) : R -> bool :=
  fun r => String.eqb (column r) v.

(** [eq(column, value)] on an integer column. *)
Definition eq_int {R} (column : R -> Z) (v : Z) : R -> bool :=
  fun r => Z.eqb (column r) v.

(** [db.query.<table>.findFirst({ where })]. *)
Definition findFirst {I R} (t : Table I R) (where_ : R -> bool) : Async (option R) :=
  fun w => (Fulfilled (find where_ (from t (db w))), w).

(** [db.delete(table).where(...)]. *)
Definition delete {I R} (t : Table I R) (where_ : R -> bool) : Async unit :=
  fun w =>
    (Fulfilled tt,
     with_db (into t (filter (fun r => negb (where_ r)) (from t (db w))) (db w)) w).

(** [db.insert(table).values(...)]. *)
Definition insert {I R} (t : Table I R) (values : I) : Async unit :=
  fun w =>
    let rows := from t (db w) in
    let row := stored t (now w) rows values in
    if existsb (clash t row) rows
    then (Rejected (SQLiteConstraint (name t)), w)
    else (Fulfilled tt, with_db (into t (rows ++ [row]) (db w)) w).

(** [db.update(table).set(...).where(...)]. *)
Definition update {I R} (t : Table I R) (set : R -> R) (where_ : R -> bool) : Async unit :=
  fun w =>
    (Fulfilled tt,
     with_db (into t (map (fun r => if where_ r then set r else r) (from t (db w))) (db w)) w).

End drizzle.

Module tables.
Import schema.

(** [user]: [id] PRIMARY KEY, [email_verified] DEFAULT false, [created_at]
    DEFAULT (unixepoch()). *)
Definition users : drizzle.Table users.Insert users.Row :=
  {| drizzle.name := "user";
     drizzle.from := user;
     drizzle.into := fun rows d =>
       {| user := rows; session := session d;
          email_verification_code := email_verification_code d;
          password_reset_token := password_reset_token d |};
     drizzle.stored := fun now_ _ v =>
       {| users.id := users.ins_id v;
          users.email := users.ins_email v;
          users.emailVerified := false;
          users.passwordHash := users.ins_passwordHash v;
          users.createdAt := drizzle.timestamp now_ |};
     drizzle.clash := fun new old => String.eqb (users.id new) (users.id old) |}.

(** [session]: [id] PRIMARY KEY. *)
Definition sessions : drizzle.Table sessions.Row sessions.Row :=
  {| drizzle.name := "session";
     drizzle.from := session;
     drizzle.into := fun rows d =>
       {| user := user d; session := rows;
          email_verification_code := email_verification_code d;
          password_reset_token := password_reset_token d |};
     drizzle.stored := fun _ _ v =>
       {| sessions.id := sessions.id v;
          sessions.expiresAt := drizzle.timestamp (sessions.expiresAt v);
          sessions.userId := sessions.userId v |};
     drizzle.clash := fun new old => String.eqb (sessions.id new) (sessions.id old) |}.

(** The rowid SQLite gives a new row of an [integer PRIMARY KEY] table: one
    more than the largest in use. *)
Definition next_rowid (rows : list emailVerificationCodes.Row) : Z :=
  fold_right (fun r acc => Z.max (emailVerificationCodes.id r) acc) 0 rows + 1.

(** [email_verification_code]: [id] integer PRIMARY KEY, [user_id] UNIQUE. *)
Definition emailVerificationCodes
  : drizzle.Table emailVerificationCodes.Insert emailVerificationCodes.Row :=
  {| drizzle.name := "email_verification_code";
     drizzle.from := email_verification_code;
     drizzle.into := fun rows d =>
       {| user := user d; session := session d;
          email_verification_code := rows;
          password_reset_token := password_reset_token d |};
     drizzle.stored := fun _ rows v =>
       {| emailVerificationCodes.id := next_rowid rows;
          emailVerificationCodes.code := emailVerificationCodes.ins_code v;
          emailVerificationCodes.userId := emailVerificationCodes.ins_userId v;
          emailVerificationCodes.email := emailVerificationCodes.ins_email v;
          emailVerificationCodes.expiresAt :=
            drizzle.timestamp (emailVerificationCodes.ins_expiresAt v) |};
     drizzle.clash := fun new old =>
       Z.eqb (emailVerificationCodes.id new) (emailVerificationCodes.id old)
       || String.eqb (emailVerificationCodes.userId new)
                     (emailVerificationCodes.userId old) |}.

(** [password_reset_token]: [token_hash] PRIMARY KEY, [user_id] UNIQUE. *)
Definition passwordResetTokens
  : drizzle.Table passwordResetTokens.Row passwordResetTokens.Row :=
  {| drizzle.name := "password_reset_token";
     drizzle.from := password_reset_token;
     drizzle.into := fun rows d =>
       {| user := user d; session := session d;
          email_verification_code := email_verification_code d;
          password_reset_token := rows |};
     drizzle.stored := fun _ _ v =>
       {| passwordResetTokens.tokenHash := passwordResetTokens.tokenHash v;
          passwordResetTokens.userId := passwordResetTokens.userId v;
          passwordResetTokens.expiresAt :=
            drizzle.timestamp (passwordResetTokens.expiresAt v) |};
     drizzle.clash := fun new old =>
       String.eqb (passwordResetTokens.tokenHash new) (passwordResetTokens.tokenHash old)
       || String.eqb (passwordResetTokens.userId new)
                     (passwordResetTokens.userId old) |}.

End tables.

(** [User = Pick<UserDB, "id" | "email" | "emailVerified">]. *)
Module types.
Record User : Type := {
  id : string;
  email : string;
  emailVerified : bool
}.
End types.

(** [EmailServiceInterface]: the collaborator that sends the mails.  Its
    answer is [success] or [failure email_send_error]. *)
Class EmailServiceInterface : Type := {
  sendConfirmEmail : string -> string -> Result unit;
  sendResetPasswordEmail : string -> string -> Result unit
}.

(** ** SHA-256

    The digest behind [Bun.CryptoHasher("sha256")], after FIPS 180-4, on
    32-bit words held in [Z].  A string is hashed as the bytes it is made
    of. *)
Module SHA256.

Definition word (x : Z) : Z := x mod 2 ^ 32.

Definition rotr (n x : Z) : Z :=
  word (Z.lor (Z.shiftr x n) (Z.shiftl x (32 - n))).

Definition xor3 (x y z : Z) : Z := Z.lxor (Z.lxor x y) z.

Definition Ch (x y z : Z) : Z :=
  Z.lxor (Z.land x y) (Z.land (word (Z.lnot x)) z).
Definition Maj (x y z : Z) : Z :=
  xor3 (Z.land x y) (Z.land x z) (Z.land y z).
Definition Sigma0 (x : Z) : Z := xor3 (rotr 2 x) (rotr 13 x) (rotr 22 x).
Definition Sigma1 (x : Z) : Z := xor3 (rotr 6 x) (rotr 11 x) (rotr 25 x).
Definition sigma0 (x : Z) : Z := xor3 (rotr 7 x) (rotr 18 x) (Z.shiftr x 3).
Definition sigma1 (x : Z) : Z := xor3 (rotr 17 x) (rotr 19 x) (Z.shiftr x 10).

(** The first 64 primes. *)
Definition is_prime (n : Z) : bool :=
  forallb (fun k => negb (n mod Z.of_nat k =? 0)) (seq 2 (Z.to_nat n - 2)).
Definition primes : list Z :=
  Eval vm_compute in filter is_prime (map Z.of_nat (seq 2 310)).

(** The largest [r] below [2 ^ bits] with [r ^ 3 <= n]. *)
Fixpoint cube_root (bits : nat) (n r : Z) : Z :=
  match bits with
  | O => r
  | S b =>
      let r' := r + 2 ^ Z.of_nat b in
      cube_root b n (if r' * r' * r' <=? n then r' else r)
  end.

(** The initial hash value: the fractional parts of the square roots of the
    first 8 primes; the round constants: those of the cube roots of the
    first 64. *)
Definition H0 : list Z :=
  Eval vm_compute in map (fun p => word (Z.sqrt (p * 2 ^ 64))) (firstn 8 primes).
Definition K : list Z :=
  Eval vm_compute in map (fun p => word (cube_root 40 (p * 2 ^ 96) 0)) primes.

Definition bytes_of (data : string) : list Z :=
  map (fun c => Z.of_N (N_of_ascii c)) (list_ascii_of_string data).

Definition big_endian (width : nat) (x : Z) : list Z :=
  map (fun i => Z.shiftr x (8 * Z.of_nat i) mod 256) (rev (seq 0 width)).

Definition pad (message : list Z) : list Z :=
  let l := Z.of_nat (List.length message) in
  message ++ [128] ++ repeat 0 (Z.to_nat ((55 - l) mod 64)) ++ big_endian 8 (8 * l).

Fixpoint words_of (n : nat) (bytes : list Z) : list Z :=
  match n, bytes with
  | S n', b0 :: b1 :: b2 :: b3 :: rest =>
      (((b0 * 256 + b1) * 256 + b2) * 256 + b3) :: words_of n' rest
  | _, _ => []
  end.

(** The message schedule, latest word first. *)
Fixpoint schedule (n : nat) (rev_w : list Z) : list Z :=
  match n with
  | O => rev_w
  | S n' =>
      let at_ i := nth i rev_w 0 in
      schedule n'
        (word (sigma1 (at_ 1%nat) + at_ 6%nat + sigma0 (at_ 14%nat) + at_ 15%nat)
         :: rev_w)
  end.

Definition round (st : list Z) (kw : Z * Z) : list Z :=
  match st with
  | [a; b; c; d; e; f; g; h] =>
      let T1 := h + Sigma1 e + Ch e f g + fst kw + snd kw in
      let T2 := Sigma0 a + Maj a b c in
      [word (T1 + T2); a; b; c; word (d + T1); e; f; g]
  | _ => st
  end.

Definition compress (hash block : list Z) : list Z :=
  let W := rev (schedule 48 (rev block)) in
  map (fun p => word (fst p + snd p))
      (combine hash (fold_left round (combine K W) hash)).

Fixpoint blocks (n : nat) (words : list Z) (hash : list Z) : list Z :=
  match n with
  | O => hash
  | S n' => blocks n' (skipn 16 words) (compress hash (firstn 16 words))
  end.

Definition hex_digit (x : Z) : ascii :=
  nth (Z.to_nat x) (list_ascii_of_string "0123456789abcdef") "0"%char.

Definition hex (bytes : list Z) : string :=
  string_of_list_ascii
    (flat_map (fun b => [hex_digit (b / 16); hex_digit (b mod 16)]) bytes).

(** [update(data)] then [digest("hex")]. *)
Definition digest_hex (data : string) : string :=
  let padded := pad (bytes_of data) in
  let words := words_of (List.length padded / 4) padded in
  hex (flat_map (big_endian 4) (blocks (List.length words / 16) words H0)).

End SHA256.

(** ** The Bun runtime *)

(** [Bun.password.hash] salts from the random source and is not invertible by
    the service, which only ever asks [Bun.password.verify]; the digest of
    [Bun.CryptoHasher("sha256")] is a function of the bytes fed to it.  The
    service is embedded over any runtime of this shape. *)
Class BunRuntime : Type := {
  password_hash_salted : string -> string -> string;
  password_verify : string -> string -> bool;
  sha256_hex : string -> string
}.

Module Bun.

(** [Bun.password.hash(password)]: an empty password is refused with a
    [TypeError], before any salt is drawn. *)
Definition password_hash `{BunRuntime} (password : string) : Async string :=
  if String.eqb password "" then
    throw (TypeError "password must not be empty")
  else
    salt <- await getRandomValues ;;
    ret (password_hash_salted password salt).

(** [new Bun.CryptoHasher("sha256")], [update(data)], [digest("hex")]. *)
Definition CryptoHasher_sha256 `{BunRuntime} (data : string) : string :=
  sha256_hex data.

End Bun.

(** ** lucia 3 over [BunSQLiteAdapter]

    The session library is a dependency of the repository ([package.json]:
    lucia ^3.2.0, @lucia-auth/adapter-sqlite ^3.0.1), configured by
    [initializeLucia] with its default session lifetime of 30 days.  The
    four calls the service makes are embedded after the library. *)
Module Lucia.

Record Session : Type := {
  id : string;
  userId : string;
  fresh : bool;
  expiresAt : Z
}.

Definition sessionExpiresIn : oslo.TimeSpan :=
  {| oslo.value := 30; oslo.unit := oslo.d |}.

(** [generateIdFromEntropySize(size)]: [size] random bytes in base32. *)
Definition generateIdFromEntropySize (size : nat) : Async string :=
  getRandomValues.

(** [getUserAttributes] of [initializeLucia], with the id lucia adds. *)
Definition getUserAttributes (u : schema.users.Row) : types.User :=
  {| types.id := schema.users.id u;
     types.email := schema.users.email u;
     types.emailVerified := schema.users.emailVerified u |}.

(** [adapter.getSessionAndUser]: the session row, and the user row joined to
    it on [user.id = session.user_id]. *)
Definition getSessionAndUser (sessionId : string)
  : Async (option schema.sessions.Row * option schema.users.Row) :=
  databaseSession <- await drizzle.findFirst tables.sessions
                       (drizzle.eq schema.sessions.id sessionId) ;;
  match databaseSession with
  | None => ret (None, None)
  | Some row =>
      databaseUser <- await drizzle.findFirst tables.users
                        (drizzle.eq schema.users.id (schema.sessions.userId row)) ;;
      ret (Some row, databaseUser)
  end.

(** [lucia.createSession(userId, {})]. *)
Definition createSession (userId : string) : Async Session :=
  sessionId <- await generateIdFromEntropySize 25 ;;
  sessionExpiresAt <- await oslo.createDate sessionExpiresIn ;;
  await drizzle.insert tables.sessions
    {| schema.sessions.id := sessionId;
       schema.sessions.expiresAt := sessionExpiresAt;
       schema.sessions.userId := userId |} ;;
  ret {| id := sessionId; userId := userId; fresh := true;
         expiresAt := sessionExpiresAt |}.

(** [lucia.validateSession(sessionId)]: [{ session, user }], both [null]
    ([None]) or both set.  A session past its expiry, or without its user,
    is deleted and reported as absent; a session in the second half of its
    lifetime keeps its id, has its expiry moved to a full lifetime from now
    and comes back with [fresh] set. *)
Definition validateSession (sessionId : string)
  : Async (option (Session * types.User)) :=
  found <- await getSessionAndUser sessionId ;;
  match found with
  | (None, _) => ret None
  | (Some databaseSession, None) =>
      await drizzle.delete tables.sessions
        (drizzle.eq schema.sessions.id (schema.sessions.id databaseSession)) ;;
      ret None
  | (Some databaseSession, Some databaseUser) =>
      alive <- await oslo.isWithinExpirationDate
                 (schema.sessions.expiresAt databaseSession) ;;
      if negb alive then
        await drizzle.delete tables.sessions
          (drizzle.eq schema.sessions.id (schema.sessions.id databaseSession)) ;;
        ret None
      else
        let activePeriodExpirationDate :=
          schema.sessions.expiresAt databaseSession
          - oslo.milliseconds sessionExpiresIn / 2 in
        active <- await oslo.isWithinExpirationDate activePeriodExpirationDate ;;
        if negb active then
          expiresAt' <- await oslo.createDate sessionExpiresIn ;;
          await drizzle.update tables.sessions
            (fun r => {| schema.sessions.id := schema.sessions.id r;
                         schema.sessions.expiresAt := drizzle.timestamp expiresAt';
                         schema.sessions.userId := schema.sessions.userId r |})
            (drizzle.eq schema.sessions.id (schema.sessions.id databaseSession)) ;;
          ret (Some ({| id := schema.sessions.id databaseSession;
                        userId := schema.sessions.userId databaseSession;
                        fresh := true;
                        expiresAt := expiresAt' |},
                     getUserAttributes databaseUser))
        else
          ret (Some ({| id := schema.sessions.id databaseSession;
                        userId := schema.sessions.userId databaseSession;
                        fresh := false;
                        expiresAt := schema.sessions.expiresAt databaseSession |},
                     getUserAttributes databaseUser))
  end.

(** [lucia.invalidateSession(sessionId)]. *)
Definition invalidateSession (sessionId : string) : Async unit :=
  drizzle.delete tables.sessions (drizzle.eq schema.sessions.id sessionId).

(** [lucia.invalidateUserSessions(userId)]. *)
Definition invalidateUserSessions (userId : string) : Async unit :=
  drizzle.delete tables.sessions (drizzle.eq schema.sessions.userId userId).

End Lucia.

(** ** app/services/auth-service.ts *)

(** The [data] of the successful results. *)
Record SessionData : Type := { sessionId : string }.
Record TokenData : Type := { tokenId : string }.
Record ValidatedSession : Type := {
  user_of : types.User;
  freshSessionId : option string
}.

(** What the private [checkEmailCode] answers. *)
Inductive CodeCheck : Type := valid | expired | invalid.

Module AuthService.
Section Service.
Context {emailServiceInterface : EmailServiceInterface} {bun : BunRuntime}.

Definition validateSession (sessionId : string) : Async (Result ValidatedSession) :=
  validated <- await Lucia.validateSession sessionId ;;
  match validated with
  | None => ret (failure invalid_session)
  | Some (session, user) =>
      if Lucia.fresh session then
        ret (success {| user_of := user; freshSessionId := Some (Lucia.id session) |})
      else
        ret (success {| user_of := user; freshSessionId := None |})
  end.

Definition createEmailVerificationCode (userId email : string) : Async (Result unit) :=
  await drizzle.delete tables.emailVerificationCodes
    (drizzle.eq schema.emailVerificationCodes.userId userId) ;;
  code <- await oslo.generateRandomString 8 (oslo.alphabet "0-9") ;;
  expiresAt <- await oslo.createDate {| oslo.value := 15; oslo.unit := oslo.m |} ;;
  await drizzle.insert tables.emailVerificationCodes
    {| schema.emailVerificationCodes.ins_userId := userId;
       schema.emailVerificationCodes.ins_email := email;
       schema.emailVerificationCodes.ins_code := code;
       schema.emailVerificationCodes.ins_expiresAt := expiresAt |} ;;
  let emailServiceResponse := sendConfirmEmail email code in
  if is_failure emailServiceResponse then
    ret (failure email_send_error)
  else
    ret (success tt).

Definition signup (email password : string) : Async (Result SessionData) :=
  user <- await drizzle.findFirst tables.users (drizzle.eq schema.users.email email) ;;
  match user with
  | Some _ => ret (failure user_exists)
  | None =>
      passwordHash <- await Bun.password_hash password ;;
      userId <- await Lucia.generateIdFromEntropySize 10 ;;
      await drizzle.insert tables.users
        {| schema.users.ins_id := userId;
           schema.users.ins_email := email;
           schema.users.ins_passwordHash := passwordHash |} ;;
      await createEmailVerificationCode userId email ;;
      session <- await Lucia.createSession userId ;;
      ret (success {| sessionId := Lucia.id session |})
  end.

Definition login (email password : string) : Async (Result SessionData) :=
  user <- await drizzle.findFirst tables.users (drizzle.eq schema.users.email email) ;;
  match user with
  | None => ret (failure user_not_found)
  | Some user =>
      let isMatch := password_verify password (schema.users.passwordHash user) in
      if negb isMatch then
        ret (failure invalid_credentials)
      else
        session <- await Lucia.createSession (schema.users.id user) ;;
        ret (success {| sessionId := Lucia.id session |})
  end.

Definition checkEmailCode (user : types.User) (code : string) : Async CodeCheck :=
  emailVerificationCode <- await drizzle.findFirst tables.emailVerificationCodes
      (drizzle.eq schema.emailVerificationCodes.userId (types.id user)) ;;
  match emailVerificationCode with
  | None => ret invalid
  | Some emailVerificationCode =>
      if negb (String.eqb code (schema.emailVerificationCodes.code emailVerificationCode))
      then ret invalid
      else
        await drizzle.delete tables.emailVerificationCodes
          (drizzle.eq_int schema.emailVerificationCodes.id
             (schema.emailVerificationCodes.id emailVerificationCode)) ;;
        now_ <- await Date_now ;;
        if schema.emailVerificationCodes.expiresAt emailVerificationCode <? now_
        then ret expired
        else if negb (String.eqb
                        (schema.emailVerificationCodes.email emailVerificationCode)
                        (types.email user))
        then ret expired
        else ret valid
  end.

Definition verifyEmailCode (user : types.User) (code : string)
  : Async (Result SessionData) :=
  response <- await checkEmailCode user code ;;
  match response with
  | invalid => ret (failure invalid_code)
  | expired => ret (failure expired_code)
  | valid =>
      await drizzle.update tables.users
        (fun r => {| schema.users.id := schema.users.id r;
                     schema.users.email := schema.users.email r;
                     schema.users.emailVerified := true;
                     schema.users.passwordHash := schema.users.passwordHash r;
                     schema.users.createdAt := schema.users.createdAt r |})
        (drizzle.eq schema.users.id (types.id user)) ;;
      await Lucia.invalidateUserSessions (types.id user) ;;
      session <- await Lucia.createSession (types.id user) ;;
      ret (success {| sessionId := Lucia.id session |})
  end.

Definition createPasswordResetToken (userId : string) : Async string :=
  await drizzle.delete tables.passwordResetTokens
    (drizzle.eq schema.passwordResetTokens.userId userId) ;;
  tokenId <- await Lucia.generateIdFromEntropySize 25 ;;
  let tokenHash := Bun.CryptoHasher_sha256 tokenId in
  expiresAt <- await oslo.createDate {| oslo.value := 2; oslo.unit := oslo.h |} ;;
  await drizzle.insert tables.passwordResetTokens
    {| schema.passwordResetTokens.tokenHash := tokenHash;
       schema.passwordResetTokens.userId := userId;
       schema.passwordResetTokens.expiresAt := expiresAt |} ;;
  ret tokenId.

Definition logout (sessionId : string) : Async (Result unit) :=
  await try_catch (Lucia.invalidateSession sessionId) (fun error => ret tt) ;;
  ret (success tt).

Definition resetPasswordRequest (domain email : string) : Async (Result TokenData) :=
  user <- await drizzle.findFirst tables.users (drizzle.eq schema.users.email email) ;;
  match user with
  | None => ret (failure email_not_found)
  | Some user =>
      tokenId <- await createPasswordResetToken (schema.users.id user) ;;
      let verificationLink := domain ++ "/reset-password?token=" ++ tokenId in
      let emailServiceResponse := sendResetPasswordEmail email verificationLink in
      if is_failure emailServiceResponse then
        ret (failure email_send_error)
      else
        ret (success {| tokenId := tokenId |})
  end.

Definition resetPassword (newPassword token : string) : Async (Result SessionData) :=
  let tokenHash := Bun.CryptoHasher_sha256 token in
  passwordResetToken <- await drizzle.findFirst tables.passwordResetTokens
      (drizzle.eq schema.passwordResetTokens.tokenHash tokenHash) ;;
  match passwordResetToken with
  | None => ret (failure invalid_code)
  | Some passwordResetToken =>
      now_ <- await Date_now ;;
      if schema.passwordResetTokens.expiresAt passwordResetToken <? now_ then
        ret (failure code_expired)
      else
        await Lucia.invalidateUserSessions
          (schema.passwordResetTokens.userId passwordResetToken) ;;
        passwordHash <- await Bun.password_hash newPassword ;;
        await drizzle.update tables.users
          (fun r => {| schema.users.id := schema.users.id r;
                       schema.users.email := schema.users.email r;
                       schema.users.emailVerified := schema.users.emailVerified r;
                       schema.users.passwordHash := passwordHash;
                       schema.users.createdAt := schema.users.createdAt r |})
          (drizzle.eq schema.users.id
             (schema.passwordResetTokens.userId passwordResetToken)) ;;
        session <- await Lucia.createSession
                     (schema.passwordResetTokens.userId passwordResetToken) ;;
        ret (success {| sessionId := Lucia.id session |})
  end.

End Service.
End AuthService.

(** ** Vocabulary of the statements *)

(** No stored session carries the identifier [sid]. *)
Definition unused_session_id (sid : string) (rows : list schema.sessions.Row) : Prop :=
  forall r, In r rows -> schema.sessions.id r <> sid.

(** The sessions of one user. *)
Definition sessions_of (uid : string) (d : Database) : list schema.sessions.Row :=
  filter (drizzle.eq schema.sessions.userId uid) (session d).

(** The row [lucia.createSession] stores when called at [now_]. *)
Definition new_session (sid uid : string) (now_ : Z) : schema.sessions.Row :=
  {| schema.sessions.id := sid;
     schema.sessions.expiresAt :=
       drizzle.timestamp (now_ + oslo.milliseconds Lucia.sessionExpiresIn);
     schema.sessions.userId := uid |}.

(** The row [createPasswordResetToken] stores for a token whose digest is
    [digest], when called at [now_]. *)
Definition new_reset_token (digest uid : string) (now_ : Z)
  : schema.passwordResetTokens.Row :=
  {| schema.passwordResetTokens.tokenHash := digest;
     schema.passwordResetTokens.userId := uid;
     schema.passwordResetTokens.expiresAt :=
       drizzle.timestamp
         (now_ + oslo.milliseconds {| oslo.value := 2; oslo.unit := oslo.h |}) |}.

(** A user row with its password hash replaced. *)
Definition with_passwordHash (passwordHash : string) (r : schema.users.Row)
  : schema.users.Row :=
  {| schema.users.id := schema.users.id r;
     schema.users.email := schema.users.email r;
     schema.users.emailVerified := schema.users.emailVerified r;
     schema.users.passwordHash := passwordHash;
     schema.users.createdAt := schema.users.createdAt r |}.

(** The row [createEmailVerificationCode] stores at [now_] among [kept]. *)
Definition new_code (kept : list schema.emailVerificationCodes.Row)
           (code uid email : string) (now_ : Z) : schema.emailVerificationCodes.Row :=
  {| schema.emailVerificationCodes.id := tables.next_rowid kept;
     schema.emailVerificationCodes.code := code;
     schema.emailVerificationCodes.userId := uid;
     schema.emailVerificationCodes.email := email;
     schema.emailVerificationCodes.expiresAt :=
       drizzle.timestamp
         (now_ + oslo.milliseconds {| oslo.value := 15; oslo.unit := oslo.m |}) |}.

(** The row [signup] stores for a new user at [now_]. *)
Definition new_user (uid email passwordHash : string) (now_ : Z) : schema.users.Row :=
  {| schema.users.id := uid;
     schema.users.email := email;
     schema.users.emailVerified := false;
     schema.users.passwordHash := passwordHash;
     schema.users.createdAt := drizzle.timestamp now_ |}.

(** Fifteen days, half of the session lifetime, in milliseconds. *)
Definition fifteen_days : Z :=
  oslo.milliseconds {| oslo.value := 15; oslo.unit := oslo.d |}.

(** A session row with its expiry moved to a full lifetime from [now_]. *)
Definition renewed (now_ : Z) (r : schema.sessions.Row) : schema.sessions.Row :=
  {| schema.sessions.id := schema.sessions.id r;
     schema.sessions.expiresAt :=
       drizzle.timestamp (now_ + oslo.milliseconds Lucia.sessionExpiresIn);
     schema.sessions.userId := schema.sessions.userId r |}.

(** Unfolds one layer of the calls into the runtime and the store. *)
Ltac run :=
  unfold Lucia.generateIdFromEntropySize, Lucia.invalidateUserSessions,
    Bun.password_hash, Bun.CryptoHasher_sha256,
    oslo.createDate, oslo.isWithinExpirationDate, oslo.generateRandomString,
    drizzle.findFirst, drizzle.delete, drizzle.insert, drizzle.update,
    Date_now, getRandomValues, with_db, throw, bind, ret;
  cbn [fst snd db now entropy drawn
       user session email_verification_code password_reset_token
       drizzle.from drizzle.into drizzle.stored drizzle.name
       tables.users tables.sessions tables.emailVerificationCodes
       tables.passwordResetTokens
       schema.users.ins_id schema.users.ins_email schema.users.ins_passwordHash
       schema.sessions.id schema.sessions.expiresAt schema.sessions.userId
       schema.emailVerificationCodes.ins_userId schema.emailVerificationCodes.ins_email
       schema.emailVerificationCodes.ins_code schema.emailVerificationCodes.ins_expiresAt
       schema.passwordResetTokens.tokenHash schema.passwordResetTokens.userId
       schema.passwordResetTokens.expiresAt].

(** The email-verification code row with the given rowid removed. *)
Definition without_code (rowid : Z) (rows : list schema.emailVerificationCodes.Row)
  : list schema.emailVerificationCodes.Row :=
  filter (fun r => negb (drizzle.eq_int schema.emailVerificationCodes.id rowid r)) rows.

(** Splits a goal [In x [a; b; ...] -> P x] into [P a], [P b], ... *)
Ltac listed :=
  first [ (let E := fresh in intros [E|E]; [subst | revert E; listed])
        | intros [] ].

(** An action [keeps] a relation between databases when the database it
    leaves is related to the one it found, whether it fulfils or rejects. *)
Definition keeps {A} (R : Database -> Database -> Prop) (m : Async A) : Prop :=
  forall w, R (db w) (db (snd (m w))).

(** The PRIMARY KEY and UNIQUE constraints of the schema. *)
Definition consistent (d : Database) : Prop :=
  NoDup (map schema.users.id (user d))
  /\ NoDup (map schema.sessions.id (session d))
  /\ NoDup (map schema.emailVerificationCodes.id (email_verification_code d))
  /\ NoDup (map schema.emailVerificationCodes.userId (email_verification_code d))
  /\ NoDup (map schema.passwordResetTokens.tokenHash (password_reset_token d))
  /\ NoDup (map schema.passwordResetTokens.userId (password_reset_token d)).

(** [set] of [verifyEmailCode]: [{ emailVerified: true }]. *)
Definition set_emailVerified (r : schema.users.Row) : schema.users.Row :=
  {| schema.users.id := schema.users.id r;
     schema.users.email := schema.users.email r;
     schema.users.emailVerified := true;
     schema.users.passwordHash := schema.users.passwordHash r;
     schema.users.createdAt := schema.users.createdAt r |}.

(** What [lucia.validateSession] writes to a session it renews. *)
Definition set_expiresAt (expiresAt : Z) (r : schema.sessions.Row) : schema.sessions.Row :=
  {| schema.sessions.id := schema.sessions.id r;
     schema.sessions.expiresAt := expiresAt;
     schema.sessions.userId := schema.sessions.userId r |}.

(** Every account of [d] is still an account of [d'], under the same id and
    email, and still verified if it was. *)
Definition accounts_kept (d d' : Database) : Prop :=
  forall u, In u (user d) ->
    exists u', In u' (user d')
               /\ schema.users.id u' = schema.users.id u
               /\ schema.users.email u' = schema.users.email u
               /\ (schema.users.emailVerified u = true ->
                   schema.users.emailVerified u' = true).
(** Some stored user has the id [uid]. *)
Definition has_user (users : list schema.users.Row) (uid : string) : Prop :=
  exists u, In u users /\ schema.users.id u = uid.

(** The FOREIGN KEY clauses of the schema: every session, verification code
    and reset token belongs to a stored user. *)
Definition referential (d : Database) : Prop :=
  (forall r, In r (session d) -> has_user (user d) (schema.sessions.userId r))
  /\ (forall r, In r (email_verification_code d) ->
                has_user (user d) (schema.emailVerificationCodes.userId r))
  /\ (forall r, In r (password_reset_token d) ->
                has_user (user d) (schema.passwordResetTokens.userId r)).
(** Runs [Lucia.createSession] both ways: stored, or rejected by the store. *)
Ltac session_cases :=
  match goal with
  | |- context [Lucia.createSession ?u ?w0] =>
      destruct (Lucia.createSession u w0) as [[?session|?reason] ?w1] eqn:?Hsession;
      cbn [fst snd] in *
  end.

(** Unfolds a write to the store down to the lists it works on. *)
Ltac written :=
  intros ?w; unfold drizzle.delete, drizzle.insert, drizzle.update, with_db;
  cbn [fst snd db user session email_verification_code password_reset_token
       drizzle.from drizzle.into drizzle.name
       tables.users tables.sessions tables.emailVerificationCodes
       tables.passwordResetTokens];
  try match goal with
      | |- context [existsb ?c ?rows] =>
          let Hclash := fresh "Hclash" in
          destruct (existsb c rows) eqn:Hclash;
          cbn [fst snd db user session email_verification_code password_reset_token]
      end.

(** Discharges a write that leaves the observed part alone, and the two
    laws of the relation. *)
Ltac framed :=
  first [ solve [intros; written; reflexivity]
        | solve [intros; cbv beta in *; congruence] ].

(** Rows of a table after deletes, renewals and appends, traced back. *)
Ltac traced H :=
  repeat first
    [ apply in_app_iff in H; destruct H as [H|[H|[]]]; [|subst]
    | apply filter_In in H; destruct H as [H _]
    | let r0 := fresh "r0" in
      let E := fresh "E" in
      apply in_map_iff in H; destruct H as [r0 [E H]];
      destruct (_ : bool) in E; subst ].

(** ** A concrete runtime and concrete collaborators

    Used where a statement is evaluated on explicit inputs.  The digest is
    SHA-256 itself.  Argon2id is not reproduced: [example_password_hash]
    stands in for it, keeping the salt and the password side by side so that
    [example_password_verify] can compare. *)
Module Example.

Definition example_password_hash (password salt : string) : string :=
  "$argon2id$" ++ salt ++ "$" ++ password.

Definition example_password_verify (password hash : string) : bool :=
  let tail := "$" ++ password in
  String.eqb
    (substring (String.length hash - String.length tail) (String.length tail) hash)
    tail.

Definition runtime : BunRuntime :=
  {| password_hash_salted := example_password_hash;
     password_verify := example_password_verify;
     sha256_hex := SHA256.digest_hex |}.

(** An email service whose sends all succeed, as [MockEmailService] of the
    test-suite. *)
Definition delivering : EmailServiceInterface :=
  {| sendConfirmEmail := fun _ _ => success tt;
     sendResetPasswordEmail := fun _ _ => success tt |}.

(** An email service whose sends all fail. *)
Definition failing : EmailServiceInterface :=
  {| sendConfirmEmail := fun _ _ => failure email_send_error;
     sendResetPasswordEmail := fun _ _ => failure email_send_error |}.

Definition day : Z := 1000 * 60 * 60 * 24.

(** A random source that yields ["r0"], ["r1"], ... *)
Definition counting (n : nat) : string :=
  "r" ++ string_of_list_ascii [ascii_of_nat (48 + n)].

Definition empty : Database :=
  {| user := []; session := [];
     email_verification_code := []; password_reset_token := [] |}.

Definition alice : schema.users.Row :=
  {| schema.users.id := "u-alice";
     schema.users.email := "alice@test.com";
     schema.users.emailVerified := false;
     schema.users.passwordHash := example_password_hash "secret" "salt";
     schema.users.createdAt := 0 |}.

Definition alice_user : types.User := Lucia.getUserAttributes alice.

Definition bob : schema.users.Row :=
  {| schema.users.id := "u-bob";
     schema.users.email := "bob@test.com";
     schema.users.emailVerified := false;
     schema.users.passwordHash := example_password_hash "hunter2" "pepper";
     schema.users.createdAt := 0 |}.

(** A session of alice that ends after 10 days, one that ends after 30, and
    a session of bob. *)
Definition alice_short : schema.sessions.Row :=
  {| schema.sessions.id := "s-short";
     schema.sessions.expiresAt := 10 * day;
     schema.sessions.userId := "u-alice" |}.

Definition alice_long : schema.sessions.Row :=
  {| schema.sessions.id := "s-long";
     schema.sessions.expiresAt := 30 * day;
     schema.sessions.userId := "u-alice" |}.

Definition bob_session : schema.sessions.Row :=
  {| schema.sessions.id := "s-bob";
     schema.sessions.expiresAt := 30 * day;
     schema.sessions.userId := "u-bob" |}.

(** The verification code of alice, good for 15 minutes. *)
Definition alice_code : schema.emailVerificationCodes.Row :=
  {| schema.emailVerificationCodes.id := 1;
     schema.emailVerificationCodes.code := "12345678";
     schema.emailVerificationCodes.userId := "u-alice";
     schema.emailVerificationCodes.email := "alice@test.com";
     schema.emailVerificationCodes.expiresAt := 900000 |}.

(** A verification code of alice issued for another address. *)
Definition alice_code_elsewhere : schema.emailVerificationCodes.Row :=
  {| schema.emailVerificationCodes.id := 1;
     schema.emailVerificationCodes.code := "12345678";
     schema.emailVerificationCodes.userId := "u-alice";
     schema.emailVerificationCodes.email := "alice@elsewhere.com";
     schema.emailVerificationCodes.expiresAt := 900000 |}.

Definition reset_token_digest : string :=
  Eval vm_compute in SHA256.digest_hex "reset-token".

(** The reset token ["reset-token"] of alice, good for 2 hours. *)
Definition alice_token : schema.passwordResetTokens.Row :=
  {| schema.passwordResetTokens.tokenHash := reset_token_digest;
     schema.passwordResetTokens.userId := "u-alice";
     schema.passwordResetTokens.expiresAt := 7200000 |}.

Definition registered : Database :=
  {| user := [alice; bob];
     session := [alice_short; alice_long; bob_session];
     email_verification_code := [alice_code];
     password_reset_token := [alice_token] |}.

Definition registered_elsewhere : Database :=
  {| user := [alice; bob];
     session := [alice_short; alice_long; bob_session];
     email_verification_code := [alice_code_elsewhere];
     password_reset_token := [alice_token] |}.

Definition world (d : Database) (t : Z) : World :=
  {| db := d; now := t; entropy := counting; drawn := 0 |}.

(** Five seconds, a thousand seconds and eleven days after the epoch: by
    the second the code of alice has expired, by the third her reset token
    and her short session have too. *)
Definition early : World := world registered 5000.
Definition minutes_later : World := world registered 1000000.
Definition days_later : World := world registered (11 * day).

(** A world whose random source yields ["r0"] first and then ["zz"] for ever. *)
Definition other_world (d : Database) (t : Z) : World :=
  {| db := d; now := t;
     entropy := (fun n => match n with O => "r0" | S _ => "zz" end);
     drawn := 0 |}.

End Example.

(** * Properties *)

(** ** Lists as tables *)

Lemma find_absent {A} (f : A -> bool) (l : list A) :
  (forall x, In x l -> f x = false) -> find f l = None.
Proof.
  induction l as [|a l IH]; intros Hall; simpl; [reflexivity|].
  rewrite (Hall a (or_introl Logic.eq_refl)).
  apply IH. intros x Hx. apply Hall. now right.
Qed.

Lemma existsb_absent {A} (f : A -> bool) (l : list A) :
  (forall x, In x l -> f x = false) -> existsb f l = false.
Proof.
  induction l as [|a l IH]; intros Hall; simpl; [reflexivity|].
  rewrite (Hall a (or_introl Logic.eq_refl)). simpl.
  apply IH. intros x Hx. apply Hall. now right.
Qed.

Lemma session_insert_allowed (sid : string) (row : schema.sessions.Row)
      (rows : list schema.sessions.Row) :
  schema.sessions.id row = sid ->
  unused_session_id sid rows ->
  existsb (drizzle.clash tables.sessions row) rows = false.
Proof.
  intros Hid Hfresh. apply existsb_absent. intros r Hr. simpl.
  rewrite Hid. apply String.eqb_neq. intro E. exact (Hfresh r Hr (Logic.eq_sym E)).
Qed.

Lemma unused_after_delete (sid : string) (p : schema.sessions.Row -> bool)
      (rows : list schema.sessions.Row) :
  unused_session_id sid rows -> unused_session_id sid (filter p rows).
Proof.
  intros H r Hr. apply filter_In in Hr. apply H. tauto.
Qed.

(** [lucia.createSession] with an unused identifier drawn: the session is
    appended and returned; nothing else moves. *)
Lemma createSession_run (uid : string) (w : World) :
  unused_session_id (entropy w (drawn w)) (session (db w)) ->
  Lucia.createSession uid w =
    (Fulfilled {| Lucia.id := entropy w (drawn w);
                  Lucia.userId := uid;
                  Lucia.fresh := true;
                  Lucia.expiresAt := now w + oslo.milliseconds Lucia.sessionExpiresIn |},
     {| db := {| user := user (db w);
                 session := session (db w)
                            ++ [new_session (entropy w (drawn w)) uid (now w)];
                 email_verification_code := email_verification_code (db w);
                 password_reset_token := password_reset_token (db w) |};
        now := now w; entropy := entropy w; drawn := S (drawn w) |}).
Proof.
  intros Hfresh.
  unfold Lucia.createSession, Lucia.generateIdFromEntropySize, getRandomValues,
    oslo.createDate, Date_now, drizzle.insert, bind, ret.
  cbn -[oslo.milliseconds drizzle.timestamp existsb drizzle.clash].
  rewrite (session_insert_allowed (entropy w (drawn w))); [reflexivity|reflexivity|exact Hfresh].
Qed.

(** Whether or not its insert is rejected, [lucia.createSession] touches the
    session table only. *)
Lemma createSession_frame (uid : string) (w : World) :
  let w' := snd (Lucia.createSession uid w) in
  user (db w') = user (db w)
  /\ email_verification_code (db w') = email_verification_code (db w)
  /\ password_reset_token (db w') = password_reset_token (db w).
Proof.
  unfold Lucia.createSession, Lucia.generateIdFromEntropySize, getRandomValues,
    oslo.createDate, Date_now, drizzle.insert, bind, ret.
  cbn -[oslo.milliseconds drizzle.timestamp existsb drizzle.clash].
  destruct (existsb _ _); cbn; auto.
Qed.

Lemma filter_complement_app {A} (p : A -> bool) (l : list A) (x : A) :
  p x = true ->
  filter p (filter (fun r => negb (p r)) l ++ [x]) = [x].
Proof.
  intros Hx. rewrite filter_app. simpl. rewrite Hx.
  replace (filter p (filter (fun r => negb (p r)) l)) with (@nil A); [reflexivity|].
  induction l as [|a l IH]; simpl; [reflexivity|].
  destruct (p a) eqn:Ha; simpl; [exact IH|]. rewrite Ha. exact IH.
Qed.

Lemma existsb_none {A} (f : A -> bool) (l : list A) :
  existsb f l = false -> forall x, In x l -> f x = false.
Proof.
  intros Hno x Hx. destruct (f x) eqn:E; [|reflexivity].
  rewrite <- Hno. symmetry. apply existsb_exists. eauto.
Qed.

Lemma find_app_absent {A} (f : A -> bool) (l1 l2 : list A) :
  (forall x, In x l1 -> f x = false) -> find f (l1 ++ l2) = find f l2.
Proof.
  induction l1 as [|a l1 IH]; intros Hall; simpl; [reflexivity|].
  rewrite (Hall a (or_introl Logic.eq_refl)).
  apply IH. intros x Hx. apply Hall. now right.
Qed.

Lemma find_present {A} (f : A -> bool) (l : list A) (x : A) :
  In x l -> f x = true -> exists y, find f l = Some y.
Proof.
  induction l as [|a l IH]; intros Hin Hx; [contradiction|]. simpl.
  destruct (f a) eqn:Ha; [eauto|].
  destruct Hin as [->|Hin]; [congruence|auto].
Qed.

Lemma next_rowid_above (rows : list schema.emailVerificationCodes.Row) r :
  In r rows -> schema.emailVerificationCodes.id r < tables.next_rowid rows.
Proof.
  unfold tables.next_rowid.
  induction rows as [|a rows IH]; intros Hin; [contradiction|]. simpl.
  destruct Hin as [->|Hin]; [lia|]. specialize (IH Hin). lia.
Qed.

(** The insert of [createEmailVerificationCode] is never rejected: the rows
    of the user have just been deleted and the rowid is a new one. *)
Lemma code_insert_allowed (uid : string) (now_ : Z)
      (values : schema.emailVerificationCodes.Insert)
      (rows : list schema.emailVerificationCodes.Row) :
  schema.emailVerificationCodes.ins_userId values = uid ->
  let kept := filter (fun r => negb (drizzle.eq schema.emailVerificationCodes.userId uid r))
                     rows in
  existsb (drizzle.clash tables.emailVerificationCodes
             (drizzle.stored tables.emailVerificationCodes now_ kept values))
          kept = false.
Proof.
  intros Huid kept. apply existsb_absent. intros r Hr.
  cbn [drizzle.clash drizzle.stored tables.emailVerificationCodes
       schema.emailVerificationCodes.id schema.emailVerificationCodes.userId].
  apply orb_false_iff. split.
  - apply Z.eqb_neq. pose proof (next_rowid_above kept r Hr). lia.
  - apply filter_In in Hr. destruct Hr as [_ Hr]. apply negb_true_iff in Hr.
    unfold drizzle.eq in Hr. rewrite Huid, String.eqb_sym. exact Hr.
Qed.

Lemma half_lifetime : oslo.milliseconds Lucia.sessionExpiresIn / 2 = fifteen_days.
Proof. reflexivity. Qed.

Lemma without_code_In (rowid : Z) (rows : list schema.emailVerificationCodes.Row) r :
  In r (without_code rowid rows)
  <-> In r rows /\ schema.emailVerificationCodes.id r <> rowid.
Proof.
  unfold without_code, drizzle.eq_int. rewrite filter_In.
  rewrite negb_true_iff, Z.eqb_neq. reflexivity.
Qed.

Section AuthServiceProperties.
Context {emailServiceInterface : EmailServiceInterface} {bun : BunRuntime}.

(** C6. [login(email, password)]: with no user of that email it fails with
    [user_not_found]; with a user whose stored hash does not verify the
    password it fails with [invalid_credentials]; with a user whose hash
    verifies, and a session identifier drawn that is not in use, it succeeds
    with that identifier, and the store then holds a 30-day session of that
    user under it. *)
Theorem login_outcomes (w : World) (email password : string) :
  ((forall u, In u (user (db w)) -> schema.users.email u <> email) ->
   fst (AuthService.login email password w) = Fulfilled (failure user_not_found))
  /\
  (forall u,
     find (drizzle.eq schema.users.email email) (user (db w)) = Some u ->
     password_verify password (schema.users.passwordHash u) = false ->
     fst (AuthService.login email password w) = Fulfilled (failure invalid_credentials))
  /\
  (forall u,
     find (drizzle.eq schema.users.email email) (user (db w)) = Some u ->
     password_verify password (schema.users.passwordHash u) = true ->
     unused_session_id (entropy w (drawn w)) (session (db w)) ->
     let sid := entropy w (drawn w) in
     let w' := snd (AuthService.login email password w) in
     fst (AuthService.login email password w)
       = Fulfilled (success {| sessionId := sid |})
     /\ session (db w')
        = (session (db w) ++ [new_session sid (schema.users.id u) (now w)])%list).
Proof.
  unfold AuthService.login, drizzle.findFirst.
  split; [|split].
  - intros Hnone. unfold bind. cbn [fst drizzle.from tables.users].
    rewrite find_absent; [reflexivity|].
    intros x Hx. apply String.eqb_neq. auto.
  - intros u Hfind Hverify. unfold bind. cbn [fst drizzle.from tables.users].
    rewrite Hfind, Hverify. reflexivity.
  - intros u Hfind Hverify Hfresh. unfold bind. cbn [fst snd drizzle.from tables.users].
    rewrite Hfind, Hverify. cbn [negb].
    rewrite (createSession_run _ _ Hfresh). split; reflexivity.
Qed.

(** What the matching branch of [checkEmailCode] does: the row is deleted by
    its rowid, then the expiry and the email decide. *)
Lemma checkEmailCode_match (w : World) (usr : types.User) (code : string)
      (row : schema.emailVerificationCodes.Row) :
  find (drizzle.eq schema.emailVerificationCodes.userId (types.id usr))
       (email_verification_code (db w)) = Some row ->
  code = schema.emailVerificationCodes.code row ->
  AuthService.checkEmailCode usr code w =
    (Fulfilled
       (if schema.emailVerificationCodes.expiresAt row <? now w then expired
        else if negb (String.eqb (schema.emailVerificationCodes.email row)
                                 (types.email usr))
        then expired else valid),
     {| db := {| user := user (db w);
                 session := session (db w);
                 email_verification_code :=
                   without_code (schema.emailVerificationCodes.id row)
                                (email_verification_code (db w));
                 password_reset_token := password_reset_token (db w) |};
        now := now w; entropy := entropy w; drawn := drawn w |}).
Proof.
  intros Hfind Hcode. unfold AuthService.checkEmailCode. run.
  rewrite Hfind. rewrite <- Hcode, String.eqb_refl. cbn [negb].
  unfold without_code.
  destruct (schema.emailVerificationCodes.expiresAt row <? now w); [reflexivity|].
  destruct (negb _); reflexivity.
Qed.

(** C7. [verifyEmailCode] when the stored code of the user matches the
    supplied one: if its expiry is in the past, or if the email it was
    issued for is not the user's, the call fails with [expired_code]. *)
Theorem verifyEmailCode_expired (w : World) (usr : types.User) (code : string)
        (row : schema.emailVerificationCodes.Row) :
  find (drizzle.eq schema.emailVerificationCodes.userId (types.id usr))
       (email_verification_code (db w)) = Some row ->
  code = schema.emailVerificationCodes.code row ->
  schema.emailVerificationCodes.expiresAt row < now w
  \/ schema.emailVerificationCodes.email row <> types.email usr ->
  fst (AuthService.verifyEmailCode usr code w) = Fulfilled (failure expired_code).
Proof.
  intros Hfind Hcode Hwhy.
  unfold AuthService.verifyEmailCode. unfold bind at 1.
  rewrite (checkEmailCode_match _ _ _ _ Hfind Hcode).
  destruct (Z.ltb_spec (schema.emailVerificationCodes.expiresAt row) (now w)) as [Hlt|Hge];
    [reflexivity|].
  destruct Hwhy as [Hpast|Hmail]; [lia|].
  apply String.eqb_neq in Hmail. rewrite Hmail. reflexivity.
Qed.

(** C3. [verifyEmailCode] when the stored code of the user matches the
    supplied one, has not expired and was issued for the user's email, and
    the session identifier drawn is not in use: the call succeeds with that
    identifier; afterwards the same users are stored and every row of this
    user has [emailVerified] set, the user's only session is the new one,
    and none of the user's earlier sessions is left. *)
Theorem verifyEmailCode_valid (w : World) (usr : types.User) (code : string)
        (row : schema.emailVerificationCodes.Row) :
  find (drizzle.eq schema.emailVerificationCodes.userId (types.id usr))
       (email_verification_code (db w)) = Some row ->
  code = schema.emailVerificationCodes.code row ->
  now w <= schema.emailVerificationCodes.expiresAt row ->
  schema.emailVerificationCodes.email row = types.email usr ->
  unused_session_id (entropy w (drawn w)) (session (db w)) ->
  let sid := entropy w (drawn w) in
  let uid := types.id usr in
  let w' := snd (AuthService.verifyEmailCode usr code w) in
  fst (AuthService.verifyEmailCode usr code w)
    = Fulfilled (success {| sessionId := sid |})
  /\ map schema.users.id (user (db w')) = map schema.users.id (user (db w))
  /\ (forall u, In u (user (db w')) -> schema.users.id u = uid ->
                schema.users.emailVerified u = true)
  /\ sessions_of uid (db w') = [new_session sid uid (now w)]
  /\ (forall s0, In s0 (session (db w)) -> schema.sessions.userId s0 = uid ->
                 ~ In s0 (session (db w'))).
Proof.
  intros Hfind Hcode Hlive Hmail Hfresh sid uid w'.
  assert (Hrun : AuthService.verifyEmailCode usr code w =
    (Fulfilled (success {| sessionId := sid |}),
     {| db := {| user :=
                   map (fun r =>
                          if drizzle.eq schema.users.id uid r
                          then {| schema.users.id := schema.users.id r;
                                  schema.users.email := schema.users.email r;
                                  schema.users.emailVerified := true;
                                  schema.users.passwordHash := schema.users.passwordHash r;
                                  schema.users.createdAt := schema.users.createdAt r |}
                          else r)
                       (user (db w));
                 session :=
                   (filter (fun r => negb (drizzle.eq schema.sessions.userId uid r))
                           (session (db w))
                    ++ [new_session sid uid (now w)])%list;
                 email_verification_code :=
                   without_code (schema.emailVerificationCodes.id row)
                                (email_verification_code (db w));
                 password_reset_token := password_reset_token (db w) |};
        now := now w; entropy := entropy w; drawn := S (drawn w) |})).
  { unfold AuthService.verifyEmailCode. unfold bind at 1.
    rewrite (checkEmailCode_match _ _ _ _ Hfind Hcode).
    destruct (Z.ltb_spec (schema.emailVerificationCodes.expiresAt row) (now w)) as [Hlt|_];
      [lia|].
    rewrite Hmail, String.eqb_refl. cbn [negb].
    run.
    rewrite createSession_run;
      [|cbn [db session drawn entropy]; apply unused_after_delete; exact Hfresh].
    reflexivity. }
  subst w'. rewrite Hrun. cbn [fst snd db user session].
  split; [reflexivity|]. split; [|split; [|split]].
  - rewrite map_map. apply map_ext. intros u.
    destruct (drizzle.eq schema.users.id uid u); reflexivity.
  - intros u Hu Hid. apply in_map_iff in Hu. destruct Hu as [u0 [Hu0 _]].
    destruct (drizzle.eq schema.users.id uid u0) eqn:E.
    + subst u. reflexivity.
    + subst u. unfold drizzle.eq in E. rewrite Hid, String.eqb_refl in E. discriminate.
  - unfold sessions_of. cbn [session].
    apply (filter_complement_app (drizzle.eq schema.sessions.userId uid)).
    unfold drizzle.eq, new_session. cbn. apply String.eqb_refl.
  - intros s0 Hs0 Huid Hin. apply in_app_iff in Hin. destruct Hin as [Hin|Hin].
    + apply filter_In in Hin. destruct Hin as [_ Hneg].
      unfold drizzle.eq in Hneg. rewrite Huid, String.eqb_refl in Hneg. discriminate.
    + destruct Hin as [Hnew|[]]. apply (Hfresh s0 Hs0). rewrite <- Hnew. reflexivity.
Qed.

(** C2, as the code has it.  [verifyEmailCode] when a code is stored for the
    user: if the supplied code matches, the stored row is removed (by its
    rowid) and nothing else leaves the table, whatever the expiry and the
    email say; if the supplied code does not match, the call fails with
    [invalid_code] and the table of codes is left as it was. *)
Theorem verifyEmailCode_consumes_matching_code (w : World) (usr : types.User)
        (code : string) (row : schema.emailVerificationCodes.Row) :
  find (drizzle.eq schema.emailVerificationCodes.userId (types.id usr))
       (email_verification_code (db w)) = Some row ->
  let w' := snd (AuthService.verifyEmailCode usr code w) in
  (code = schema.emailVerificationCodes.code row ->
   ~ In row (email_verification_code (db w'))
   /\ forall r, In r (email_verification_code (db w'))
                <-> In r (email_verification_code (db w))
                    /\ schema.emailVerificationCodes.id r
                       <> schema.emailVerificationCodes.id row)
  /\
  (code <> schema.emailVerificationCodes.code row ->
   fst (AuthService.verifyEmailCode usr code w) = Fulfilled (failure invalid_code)
   /\ email_verification_code (db w') = email_verification_code (db w)).
Proof.
  intros Hfind w'. split.
  - intros Hcode.
    assert (Hcodes : email_verification_code (db w')
                     = without_code (schema.emailVerificationCodes.id row)
                                    (email_verification_code (db w))).
    { subst w'. unfold AuthService.verifyEmailCode. unfold bind at 1.
      rewrite (checkEmailCode_match _ _ _ _ Hfind Hcode).
      destruct (if schema.emailVerificationCodes.expiresAt row <? now w
                then expired
                else if negb (String.eqb (schema.emailVerificationCodes.email row)
                                         (types.email usr))
                     then expired else valid); try reflexivity.
      run.
      match goal with
      | |- context [Lucia.createSession ?u ?w0] =>
          pose proof (createSession_frame u w0) as Hframe;
          destruct (Lucia.createSession u w0) as [[session0|reason] w1]
      end; cbn [snd fst] in *; destruct Hframe as [_ [Hframe _]];
        rewrite Hframe; reflexivity. }
    rewrite Hcodes. split.
    + rewrite without_code_In. tauto.
    + intros r. apply without_code_In.
  - intros Hcode. subst w'.
    unfold AuthService.verifyEmailCode, AuthService.checkEmailCode. run.
    rewrite Hfind. apply String.eqb_neq in Hcode. rewrite Hcode. cbn. auto.
Qed.

(** The successful path of [resetPassword], step by step. *)
Lemma resetPassword_valid_run (w : World) (newPassword token : string)
      (t : schema.passwordResetTokens.Row) :
  find (drizzle.eq schema.passwordResetTokens.tokenHash (sha256_hex token))
       (password_reset_token (db w)) = Some t ->
  now w <= schema.passwordResetTokens.expiresAt t ->
  newPassword <> "" ->
  unused_session_id (entropy w (S (drawn w))) (session (db w)) ->
  let uid := schema.passwordResetTokens.userId t in
  let sid := entropy w (S (drawn w)) in
  AuthService.resetPassword newPassword token w =
    (Fulfilled (success {| sessionId := sid |}),
     {| db := {| user :=
                   map (fun r =>
                          if drizzle.eq schema.users.id uid r
                          then with_passwordHash
                                 (password_hash_salted newPassword (entropy w (drawn w))) r
                          else r)
                       (user (db w));
                 session :=
                   (filter (fun r => negb (drizzle.eq schema.sessions.userId uid r))
                           (session (db w))
                    ++ [new_session sid uid (now w)])%list;
                 email_verification_code := email_verification_code (db w);
                 password_reset_token := password_reset_token (db w) |};
        now := now w; entropy := entropy w; drawn := S (S (drawn w)) |}).
Proof.
  intros Hfind Hlive Hpassword Hfresh uid sid.
  unfold AuthService.resetPassword. run. rewrite Hfind.
  destruct (Z.ltb_spec (schema.passwordResetTokens.expiresAt t) (now w)) as [Hlt|_];
    [lia|].
  apply String.eqb_neq in Hpassword. rewrite Hpassword. run.
  rewrite createSession_run;
    [|cbn [db session drawn entropy]; apply unused_after_delete; exact Hfresh].
  reflexivity.
Qed.

(** C4. [resetPassword(newPassword, token)]: when no stored token has the
    SHA-256 digest of [token] as its hash the call fails with
    [invalid_code]; when the stored token found under that digest has its
    expiry in the past it fails with [code_expired]; otherwise, for a
    [newPassword] that is not empty and the session identifier drawn not
    being in use, it succeeds with that identifier, the sessions the token's
    user had are gone and the new one is the user's only session, and the
    user's password hash is the hash of [newPassword] (other users are
    untouched). *)
Theorem resetPassword_outcomes (w : World) (newPassword token : string) :
  ((forall t, In t (password_reset_token (db w)) ->
              schema.passwordResetTokens.tokenHash t <> sha256_hex token) ->
   fst (AuthService.resetPassword newPassword token w)
     = Fulfilled (failure invalid_code))
  /\
  (forall t,
     find (drizzle.eq schema.passwordResetTokens.tokenHash (sha256_hex token))
          (password_reset_token (db w)) = Some t ->
     schema.passwordResetTokens.expiresAt t < now w ->
     fst (AuthService.resetPassword newPassword token w)
       = Fulfilled (failure code_expired))
  /\
  (forall t,
     find (drizzle.eq schema.passwordResetTokens.tokenHash (sha256_hex token))
          (password_reset_token (db w)) = Some t ->
     now w <= schema.passwordResetTokens.expiresAt t ->
     newPassword <> "" ->
     unused_session_id (entropy w (S (drawn w))) (session (db w)) ->
     let uid := schema.passwordResetTokens.userId t in
     let sid := entropy w (S (drawn w)) in
     let newHash := password_hash_salted newPassword (entropy w (drawn w)) in
     let w' := snd (AuthService.resetPassword newPassword token w) in
     fst (AuthService.resetPassword newPassword token w)
       = Fulfilled (success {| sessionId := sid |})
     /\ (forall s0, In s0 (session (db w)) -> schema.sessions.userId s0 = uid ->
                    ~ In s0 (session (db w')))
     /\ sessions_of uid (db w') = [new_session sid uid (now w)]
     /\ (forall u, In u (user (db w)) -> schema.users.id u = uid ->
                   In (with_passwordHash newHash u) (user (db w')))
     /\ (forall u, In u (user (db w')) -> schema.users.id u = uid ->
                   schema.users.passwordHash u = newHash)
     /\ (forall u, In u (user (db w)) -> schema.users.id u <> uid ->
                   In u (user (db w')))).
Proof.
  split; [|split].
  - intros Hnone. unfold AuthService.resetPassword. run.
    rewrite find_absent; [reflexivity|].
    intros t Ht. apply String.eqb_neq. auto.
  - intros t Hfind Hpast. unfold AuthService.resetPassword. run.
    rewrite Hfind. apply Z.ltb_lt in Hpast. rewrite Hpast. reflexivity.
  - intros t Hfind Hlive Hpassword Hfresh uid sid newHash w'. subst w'.
    rewrite (resetPassword_valid_run _ _ _ _ Hfind Hlive Hpassword Hfresh).
    cbn [fst snd db user session]. fold uid sid newHash.
    split; [reflexivity|]. split; [|split; [|split; [|split]]].
    + intros s0 Hs0 Huid Hin. apply in_app_iff in Hin. destruct Hin as [Hin|Hin].
      * apply filter_In in Hin. destruct Hin as [_ Hneg].
        unfold drizzle.eq in Hneg. rewrite Huid, String.eqb_refl in Hneg. discriminate.
      * destruct Hin as [Hnew|[]]. apply (Hfresh s0 Hs0). rewrite <- Hnew. reflexivity.
    + unfold sessions_of. cbn [session].
      apply (filter_complement_app (drizzle.eq schema.sessions.userId uid)).
      unfold drizzle.eq, new_session. cbn. apply String.eqb_refl.
    + intros u Hu Hid. apply in_map_iff. exists u. split; [|exact Hu].
      unfold drizzle.eq. rewrite Hid, String.eqb_refl. reflexivity.
    + intros u Hu Hid. apply in_map_iff in Hu. destruct Hu as [u0 [Hu0 _]].
      destruct (drizzle.eq schema.users.id uid u0) eqn:E.
      * subst u. reflexivity.
      * subst u. unfold drizzle.eq in E. rewrite Hid, String.eqb_refl in E. discriminate.
    + intros u Hu Hid. apply in_map_iff. exists u. split; [|exact Hu].
      apply String.eqb_neq in Hid. unfold drizzle.eq. rewrite Hid. reflexivity.
Qed.

(** [resetPassword] never writes the table of reset tokens. *)
Lemma resetPassword_keeps_tokens (w : World) (newPassword token : string) :
  password_reset_token (db (snd (AuthService.resetPassword newPassword token w)))
  = password_reset_token (db w).
Proof.
  unfold AuthService.resetPassword. run.
  destruct (find _ _) as [t|]; [|reflexivity].
  destruct (_ <? _); [reflexivity|].
  destruct (String.eqb newPassword ""); run; [reflexivity|].
  match goal with
  | |- context [Lucia.createSession ?u ?w0] =>
      pose proof (createSession_frame u w0) as Hframe;
      destruct (Lucia.createSession u w0) as [[session0|reason] w1]
  end; cbn [snd fst] in *; destruct Hframe as [_ [_ Hframe]];
    rewrite Hframe; reflexivity.
Qed.

(** Once a token is found under the digest, [resetPassword] does not answer
    [invalid_code]; before the token's expiry it does not answer
    [code_expired] either. *)
Lemma resetPassword_found (w : World) (newPassword token : string)
      (t : schema.passwordResetTokens.Row) :
  find (drizzle.eq schema.passwordResetTokens.tokenHash (sha256_hex token))
       (password_reset_token (db w)) = Some t ->
  fst (AuthService.resetPassword newPassword token w) <> Fulfilled (failure invalid_code)
  /\ (now w <= schema.passwordResetTokens.expiresAt t ->
      fst (AuthService.resetPassword newPassword token w)
        <> Fulfilled (failure code_expired)).
Proof.
  intros Hfind. unfold AuthService.resetPassword. run. rewrite Hfind.
  destruct (Z.ltb_spec (schema.passwordResetTokens.expiresAt t) (now w)) as [Hlt|Hge].
  - split; [discriminate|]. lia.
  - destruct (String.eqb newPassword ""); run; [split; intros; discriminate|].
    match goal with
    | |- context [Lucia.createSession ?u ?w0] =>
        destruct (Lucia.createSession u w0) as [[session0|reason] w1]
    end; cbn [fst]; split; intros; discriminate.
Qed.

(** C8. A successful [resetPassword] leaves the table of reset tokens as it
    was: the row matched by the token's digest is still the one found
    afterwards, so the same token is not answered [invalid_code] by a later
    call, nor [code_expired] by a call made before the row's expiry. *)
Theorem resetPassword_keeps_token_row (w w' : World) (newPassword token : string)
        (data : SessionData) :
  AuthService.resetPassword newPassword token w = (Fulfilled (success data), w') ->
  password_reset_token (db w') = password_reset_token (db w)
  /\ exists t,
       find (drizzle.eq schema.passwordResetTokens.tokenHash (sha256_hex token))
            (password_reset_token (db w)) = Some t
       /\ find (drizzle.eq schema.passwordResetTokens.tokenHash (sha256_hex token))
               (password_reset_token (db w')) = Some t
       /\ forall (later : Z) (password' : string),
            fst (AuthService.resetPassword password' token (at_time later w'))
              <> Fulfilled (failure invalid_code)
            /\ (later <= schema.passwordResetTokens.expiresAt t ->
                fst (AuthService.resetPassword password' token (at_time later w'))
                  <> Fulfilled (failure code_expired)).
Proof.
  intros Hrun.
  assert (Hsame : password_reset_token (db w') = password_reset_token (db w)).
  { pose proof (resetPassword_keeps_tokens w newPassword token) as H.
    rewrite Hrun in H. exact H. }
  split; [exact Hsame|].
  destruct (find (drizzle.eq schema.passwordResetTokens.tokenHash (sha256_hex token))
                 (password_reset_token (db w))) as [t|] eqn:Hfind.
  - exists t. rewrite Hsame. split; [reflexivity|]. split; [exact Hfind|].
    intros later password'.
    apply (resetPassword_found (at_time later w') password' token t).
    cbn [at_time db]. rewrite Hsame. exact Hfind.
  - exfalso. revert Hrun. unfold AuthService.resetPassword. run.
    rewrite Hfind. discriminate.
Qed.

(** A successful [resetPasswordRequest]: the user was found, the token
    returned is the string drawn, and the store differs only in the table of
    reset tokens, where the rows of that user are replaced by one row
    holding the digest of the token. *)
Lemma resetPasswordRequest_success (w w' : World) (domain email : string)
      (data : TokenData) :
  AuthService.resetPasswordRequest domain email w = (Fulfilled (success data), w') ->
  exists u,
    find (drizzle.eq schema.users.email email) (user (db w)) = Some u
    /\ tokenId data = entropy w (drawn w)
    /\ db w' =
       {| user := user (db w);
          session := session (db w);
          email_verification_code := email_verification_code (db w);
          password_reset_token :=
            (filter (fun r => negb (drizzle.eq schema.passwordResetTokens.userId
                                               (schema.users.id u) r))
                    (password_reset_token (db w))
             ++ [new_reset_token (sha256_hex (tokenId data)) (schema.users.id u) (now w)])%list |}.
Proof.
  unfold AuthService.resetPasswordRequest, AuthService.createPasswordResetToken. run.
  destruct (find _ (user (db w))) as [u|]; [|discriminate].
  destruct (existsb _ _); [discriminate|].
  destruct (is_failure _); [discriminate|].
  intros Hrun. injection Hrun as Hdata Hw'. subst data w'.
  exists u. cbn [tokenId db]. repeat split; reflexivity.
Qed.

(** C10. After a successful [resetPasswordRequest] the store holds a row
    whose hash is the SHA-256 digest of the token returned, and a
    [resetPassword] with that token on the world left behind, at whatever
    time, does not answer [invalid_code]; made no later than two hours
    (rounded down to the second) after the request it does not answer
    [code_expired] either. *)
Theorem resetPasswordRequest_then_resetPassword (w w' : World)
        (domain email : string) (data : TokenData) :
  AuthService.resetPasswordRequest domain email w = (Fulfilled (success data), w') ->
  (exists t, In t (password_reset_token (db w'))
             /\ schema.passwordResetTokens.tokenHash t = sha256_hex (tokenId data))
  /\ forall (later : Z) (newPassword : string),
       fst (AuthService.resetPassword newPassword (tokenId data) (at_time later w'))
         <> Fulfilled (failure invalid_code)
       /\ (later <= drizzle.timestamp
                      (now w + oslo.milliseconds {| oslo.value := 2; oslo.unit := oslo.h |}) ->
           fst (AuthService.resetPassword newPassword (tokenId data) (at_time later w'))
             <> Fulfilled (failure code_expired)).
Proof.
  intros Hrun.
  destruct (resetPasswordRequest_success _ _ _ _ _ Hrun) as [u [Hu [Htoken Hdb]]].
  assert (Hin : In (new_reset_token (sha256_hex (tokenId data)) (schema.users.id u) (now w))
                   (password_reset_token (db w'))).
  { rewrite Hdb. cbn [password_reset_token]. apply in_app_iff. right. now left. }
  split; [eexists; split; [exact Hin|reflexivity]|].
  intros later newPassword.
  destruct (find_present
              (drizzle.eq schema.passwordResetTokens.tokenHash (sha256_hex (tokenId data)))
              _ _ Hin) as [t Hfind].
  { unfold drizzle.eq, new_reset_token. cbn. apply String.eqb_refl. }
  destruct (resetPassword_found (at_time later w') newPassword (tokenId data) t Hfind)
    as [Hnot_invalid Hnot_expired].
  split; [exact Hnot_invalid|].
  intros Hsoon. apply Hnot_expired. cbn [at_time now].
  (* the row found is the one just stored: no other row of the table has its hash *)
  revert Hrun Hfind.
  unfold AuthService.resetPasswordRequest, AuthService.createPasswordResetToken. run.
  rewrite Hu.
  destruct (existsb _ _) eqn:Hclash; [discriminate|].
  destruct (is_failure _); [discriminate|].
  intros Hrun. injection Hrun as Hdata Hw'. subst data w'.
  cbn [at_time db password_reset_token tokenId].
  cbn [tokenId] in Hsoon.
  rewrite find_app_absent.
  - cbn [find]. unfold drizzle.eq at 1. cbn [schema.passwordResetTokens.tokenHash new_reset_token].
    rewrite String.eqb_refl. intros Ht. injection Ht as <-.
    cbn [schema.passwordResetTokens.expiresAt]. exact Hsoon.
  - intros r Hr. unfold drizzle.eq at 1.
    pose proof (existsb_none _ _ Hclash r Hr) as Hr'.
    cbn in Hr'. apply orb_false_iff in Hr'. destruct Hr' as [Hr' _].
    rewrite String.eqb_sym. exact Hr'.
Qed.

(** C9, as the code has it.  Whenever [resetPasswordRequest] finds the user
    and is not rejected by the store, the row it leaves for the user holds
    [sha256_hex] of the token drawn, a digest of the token alone, and the
    other tables are as before.  The store depends on the token through that
    digest only: two requests that agree on the database, the clock and the
    digest of the token drawn end with the same database, and two calls of
    [resetPassword] with tokens of the same digest do the same. *)
Theorem reset_token_stored_as_digest :
  (forall (w : World) (domain email : string) (u : schema.users.Row)
          (result : Result TokenData),
     find (drizzle.eq schema.users.email email) (user (db w)) = Some u ->
     fst (AuthService.resetPasswordRequest domain email w) = Fulfilled result ->
     db (snd (AuthService.resetPasswordRequest domain email w)) =
       {| user := user (db w);
          session := session (db w);
          email_verification_code := email_verification_code (db w);
          password_reset_token :=
            (filter (fun r => negb (drizzle.eq schema.passwordResetTokens.userId
                                               (schema.users.id u) r))
                    (password_reset_token (db w))
             ++ [new_reset_token (sha256_hex (entropy w (drawn w)))
                                 (schema.users.id u) (now w)])%list |})
  /\
  (forall (w1 w2 : World) (domain1 domain2 email : string),
     db w1 = db w2 ->
     now w1 = now w2 ->
     sha256_hex (entropy w1 (drawn w1)) = sha256_hex (entropy w2 (drawn w2)) ->
     db (snd (AuthService.resetPasswordRequest domain1 email w1))
     = db (snd (AuthService.resetPasswordRequest domain2 email w2)))
  /\
  (forall (w : World) (newPassword token1 token2 : string),
     sha256_hex token1 = sha256_hex token2 ->
     AuthService.resetPassword newPassword token1 w
     = AuthService.resetPassword newPassword token2 w).
Proof.
  split; [|split].
  - intros w domain email u result Hu.
    unfold AuthService.resetPasswordRequest, AuthService.createPasswordResetToken. run.
    rewrite Hu.
    destruct (existsb _ _); [discriminate|].
    destruct (is_failure _); reflexivity.
  - intros w1 w2 domain1 domain2 email Hdb Hnow Hdigest.
    unfold AuthService.resetPasswordRequest, AuthService.createPasswordResetToken. run.
    rewrite Hdb.
    destruct (find _ (user (db w2))) as [u|]; [|cbn; congruence].
    rewrite Hdb, Hnow, Hdigest.
    destruct (existsb _ _); [cbn; congruence|].
    destruct (is_failure _); destruct (is_failure _); cbn; congruence.
  - intros w newPassword token1 token2 Hdigest.
    unfold AuthService.resetPassword, Bun.CryptoHasher_sha256.
    rewrite Hdigest. reflexivity.
Qed.

(** [createEmailVerificationCode], step by step: the user's rows are
    deleted, a row with the code drawn is stored, and the answer of the
    email service decides the result. *)
Lemma createEmailVerificationCode_run (w : World) (uid email : string) :
  let code := entropy w (drawn w) in
  let kept := filter (fun r => negb (drizzle.eq schema.emailVerificationCodes.userId uid r))
                     (email_verification_code (db w)) in
  AuthService.createEmailVerificationCode uid email w =
    (Fulfilled (if is_failure (sendConfirmEmail email code)
                then failure email_send_error else success tt),
     {| db := {| user := user (db w);
                 session := session (db w);
                 email_verification_code :=
                   (kept ++ [new_code kept code uid email (now w)])%list;
                 password_reset_token := password_reset_token (db w) |};
        now := now w; entropy := entropy w; drawn := S (drawn w) |}).
Proof.
  intros code kept.
  unfold AuthService.createEmailVerificationCode.
  unfold oslo.generateRandomString, oslo.createDate, drizzle.delete, drizzle.insert,
    Date_now, getRandomValues, with_db, bind, ret.
  cbn [fst snd db now entropy drawn email_verification_code
       drizzle.from drizzle.into drizzle.name tables.emailVerificationCodes].
  rewrite (code_insert_allowed uid); [|reflexivity].
  destruct (is_failure _); reflexivity.
Qed.

(** C1, as the code has it.  [signup] never answers [email_send_error].
    [createEmailVerificationCode] does, when the send fails; [signup] awaits
    it and drops its result: for an email not yet registered and a password
    that is not empty, with a failing send, and with the identifiers drawn
    for the user and the session not in use, [signup] succeeds with the
    session identifier, and the user row, the verification code and the
    session are all stored. *)
Theorem signup_discards_send_failure (w : World) (email password : string) :
  fst (AuthService.signup email password w) <> Fulfilled (failure email_send_error)
  /\
  (forall (w0 : World) (uid : string),
     is_failure (sendConfirmEmail email (entropy w0 (drawn w0))) = true ->
     fst (AuthService.createEmailVerificationCode uid email w0)
       = Fulfilled (failure email_send_error))
  /\
  ((forall u, In u (user (db w)) -> schema.users.email u <> email) ->
   password <> "" ->
   let salt := entropy w (drawn w) in
   let uid := entropy w (S (drawn w)) in
   let code := entropy w (S (S (drawn w))) in
   let sid := entropy w (S (S (S (drawn w)))) in
   is_failure (sendConfirmEmail email code) = true ->
   (forall u, In u (user (db w)) -> schema.users.id u <> uid) ->
   unused_session_id sid (session (db w)) ->
   let w' := snd (AuthService.signup email password w) in
   fst (AuthService.signup email password w)
     = Fulfilled (success {| sessionId := sid |})
   /\ In (new_user uid email (password_hash_salted password salt) (now w))
         (user (db w'))
   /\ (exists kept, In (new_code kept code uid email (now w))
                       (email_verification_code (db w')))
   /\ In (new_session sid uid (now w)) (session (db w'))).
Proof.
  split; [|split].
  - unfold AuthService.signup. run.
    destruct (find _ _); [discriminate|].
    destruct (String.eqb password ""); run; [discriminate|].
    destruct (existsb _ _); [discriminate|].
    rewrite createEmailVerificationCode_run.
    match goal with
    | |- context [Lucia.createSession ?u ?w0] =>
        destruct (Lucia.createSession u w0) as [[session0|reason] w1]
    end; discriminate.
  - intros w0 uid Hfail. rewrite createEmailVerificationCode_run.
    cbn [fst]. rewrite Hfail. reflexivity.
  - intros Hnew Hpassword salt uid code sid Hfail Huid Hsid w'.
    apply String.eqb_neq in Hpassword.
    assert (Hfind : find (drizzle.eq schema.users.email email) (user (db w)) = None).
    { apply find_absent. intros u Hu. apply String.eqb_neq. auto. }
    assert (Hins : existsb (drizzle.clash tables.users
                              (new_user uid email (password_hash_salted password salt) (now w)))
                           (user (db w)) = false).
    { apply existsb_absent. intros u Hu. cbn. apply String.eqb_neq.
      intros E. exact (Huid u Hu (Logic.eq_sym E)). }
    subst w'. unfold AuthService.signup. run. rewrite Hfind, Hpassword. run.
    fold salt uid. fold (new_user uid email (password_hash_salted password salt) (now w)).
    rewrite Hins. rewrite createEmailVerificationCode_run.
    cbn [fst snd db now entropy drawn user session email_verification_code].
    rewrite createSession_run; [|exact Hsid].
    cbn [fst snd db now entropy drawn user session email_verification_code Lucia.id].
    fold code sid.
    split; [reflexivity|]. split; [|split].
    + apply in_app_iff. right. now left.
    + eexists. apply in_app_iff. right. left. reflexivity.
    + apply in_app_iff. right. now left.
Qed.

(** C5, as the code has it.  [validateSession(sessionId)] fails with
    [invalid_session] exactly when no session is stored under the
    identifier, or the session's user is not stored, or the session's expiry
    is not in the future.  For a session whose user is stored and whose
    expiry is in the future: with less than 15 days left the result carries
    [freshSessionId], which is [sessionId] itself, no identifier is added to
    the store, and the session's expiry is moved to 30 days from now; with
    more than 15 days left the result carries no [freshSessionId] and the
    world is left as it was. *)
Theorem validateSession_outcomes (w : World) (sessionId : string) :
  (fst (AuthService.validateSession sessionId w) = Fulfilled (failure invalid_session)
   <->
   (find (drizzle.eq schema.sessions.id sessionId) (session (db w)) = None
    \/ exists s0,
         find (drizzle.eq schema.sessions.id sessionId) (session (db w)) = Some s0
         /\ (find (drizzle.eq schema.users.id (schema.sessions.userId s0))
                  (user (db w)) = None
             \/ schema.sessions.expiresAt s0 <= now w)))
  /\
  (forall s0 u,
     find (drizzle.eq schema.sessions.id sessionId) (session (db w)) = Some s0 ->
     find (drizzle.eq schema.users.id (schema.sessions.userId s0)) (user (db w)) = Some u ->
     now w < schema.sessions.expiresAt s0 ->
     let w' := snd (AuthService.validateSession sessionId w) in
     (schema.sessions.expiresAt s0 - now w < fifteen_days ->
      fst (AuthService.validateSession sessionId w)
        = Fulfilled (success {| user_of := Lucia.getUserAttributes u;
                                freshSessionId := Some sessionId |})
      /\ map schema.sessions.id (session (db w')) = map schema.sessions.id (session (db w))
      /\ find (drizzle.eq schema.sessions.id sessionId) (session (db w'))
         = Some (renewed (now w) s0))
     /\
     (fifteen_days < schema.sessions.expiresAt s0 - now w ->
      fst (AuthService.validateSession sessionId w)
        = Fulfilled (success {| user_of := Lucia.getUserAttributes u;
                                freshSessionId := None |})
      /\ w' = w)).
Proof.
  split.
  - unfold AuthService.validateSession, Lucia.validateSession, Lucia.getSessionAndUser.
    run.
    destruct (find _ (session (db w))) as [s0|] eqn:Hs; cbn [fst];
      [|split; [intros _; now left|reflexivity]].
    destruct (find _ (user (db w))) as [u|] eqn:Hu; cbn [fst];
      [|split; [intros _; right; exists s0; auto|reflexivity]].
    destruct (Z.ltb_spec (now w) (schema.sessions.expiresAt s0)) as [Hlive|Hdead];
      cbn [negb fst].
    + destruct (negb _); cbn [fst Lucia.fresh]; (split; [discriminate|]);
        (intros [Hno|[s1 [Hs1 [Hno|Hexp]]]];
         [discriminate
         |injection Hs1 as <-; congruence
         |injection Hs1 as <-; lia]).
    + split; [intros _; right; exists s0; auto|reflexivity].
  - intros s0 u Hs Hu Hlive w'. subst w'.
    assert (Hid : schema.sessions.id s0 = sessionId).
    { apply find_some in Hs. destruct Hs as [_ Hs]. apply String.eqb_eq. exact Hs. }
    unfold AuthService.validateSession, Lucia.validateSession, Lucia.getSessionAndUser.
    run. rewrite Hs. cbn [fst snd]. rewrite Hu.
    apply Z.ltb_lt in Hlive. rewrite Hlive. cbn [negb].
    rewrite half_lifetime.
    split; intros Hleft.
    + destruct (Z.ltb_spec (now w) (schema.sessions.expiresAt s0 - fifteen_days)); [lia|].
      cbn [negb fst snd Lucia.fresh Lucia.id db session]. rewrite Hid.
      split; [reflexivity|]. split.
      * rewrite map_map. apply map_ext. intros r.
        destruct (drizzle.eq schema.sessions.id sessionId r); reflexivity.
      * clear - Hs. induction (session (db w)) as [|a l IH]; [discriminate|].
        cbn [find map] in *.
        destruct (drizzle.eq schema.sessions.id sessionId a) eqn:Ha.
        -- injection Hs as <-. unfold drizzle.eq at 1.
           cbn [schema.sessions.id]. unfold drizzle.eq in Ha. rewrite Ha. reflexivity.
        -- rewrite Ha. apply IH. exact Hs.
    + destruct (Z.ltb_spec (now w) (schema.sessions.expiresAt s0 - fifteen_days)); [|lia].
      cbn [negb fst snd Lucia.fresh]. split; [reflexivity|].
      destruct w; reflexivity.
Qed.

End AuthServiceProperties.

(** ** The statements on explicit worlds *)

Section OnExamples.
Import Example.
#[local] Existing Instance runtime.

(** [login] for an unknown address, a wrong password and the right one. *)
Lemma login_outcomes_witness :
  fst (AuthService.login "nobody@test.com" "secret" early)
    = Fulfilled (failure user_not_found)
  /\ fst (AuthService.login "alice@test.com" "wrong" early)
     = Fulfilled (failure invalid_credentials)
  /\ fst (AuthService.login "alice@test.com" "secret" early)
     = Fulfilled (success {| sessionId := "r0" |}).
Proof.
  split; [|split].
  - apply (proj1 (login_outcomes early "nobody@test.com" "secret")).
    intros u. listed; discriminate.
  - apply (proj1 (proj2 (login_outcomes early "alice@test.com" "wrong")) alice);
      reflexivity.
  - apply (proj2 (proj2 (login_outcomes early "alice@test.com" "secret")) alice);
      try reflexivity.
    intros r. listed; discriminate.
Defined.

(** alice verifies her address in time: her two sessions make room for the
    new one. *)
Lemma verifyEmailCode_valid_witness :
  fst (AuthService.verifyEmailCode alice_user "12345678" early)
    = Fulfilled (success {| sessionId := "r0" |})
  /\ sessions_of "u-alice"
       (db (snd (AuthService.verifyEmailCode alice_user "12345678" early)))
     = [new_session "r0" "u-alice" 5000].
Proof.
  destruct (verifyEmailCode_valid early alice_user "12345678" alice_code)
    as [Hresult [_ [_ [Hsessions _]]]]; try reflexivity.
  - cbn. lia.
  - intros r. listed; discriminate.
  - split; assumption.
Defined.

(** The right code, too late; and the right code, issued for another
    address. *)
Lemma verifyEmailCode_expired_witness :
  fst (AuthService.verifyEmailCode alice_user "12345678" minutes_later)
    = Fulfilled (failure expired_code)
  /\ fst (AuthService.verifyEmailCode alice_user "12345678" (world registered_elsewhere 5000))
     = Fulfilled (failure expired_code).
Proof.
  split.
  - apply (verifyEmailCode_expired _ alice_user "12345678" alice_code);
      [reflexivity|reflexivity|left; cbn; lia].
  - apply (verifyEmailCode_expired _ alice_user "12345678" alice_code_elsewhere);
      [reflexivity|reflexivity|right; discriminate].
Defined.

(** The right code, too late, is consumed; a wrong code leaves the stored
    one in place. *)
Lemma verifyEmailCode_consumes_matching_code_witness :
  ~ In alice_code
       (email_verification_code
          (db (snd (AuthService.verifyEmailCode alice_user "12345678" minutes_later))))
  /\ email_verification_code
       (db (snd (AuthService.verifyEmailCode alice_user "00000000" early)))
     = [alice_code].
Proof.
  split.
  - apply (proj1 (verifyEmailCode_consumes_matching_code
                    minutes_later alice_user "12345678" alice_code Logic.eq_refl)).
    reflexivity.
  - apply (proj2 (verifyEmailCode_consumes_matching_code
                    early alice_user "00000000" alice_code Logic.eq_refl)).
    discriminate.
Defined.

(** [resetPassword] with an unknown token, with the token of alice after
    its expiry, and with it in time. *)
Lemma resetPassword_outcomes_witness :
  fst (AuthService.resetPassword "new" "unknown" early)
    = Fulfilled (failure invalid_code)
  /\ fst (AuthService.resetPassword "new" "reset-token" days_later)
     = Fulfilled (failure code_expired)
  /\ fst (AuthService.resetPassword "new" "reset-token" early)
     = Fulfilled (success {| sessionId := "r1" |}).
Proof.
  split; [|split].
  - apply (proj1 (resetPassword_outcomes early "new" "unknown")).
    intros t. listed. vm_compute. discriminate.
  - apply (proj1 (proj2 (resetPassword_outcomes days_later "new" "reset-token"))
             alice_token).
    + vm_compute. reflexivity.
    + vm_compute. reflexivity.
  - apply (proj2 (proj2 (resetPassword_outcomes early "new" "reset-token"))
             alice_token).
    + vm_compute. reflexivity.
    + vm_compute. discriminate.
    + discriminate.
    + intros r. listed; discriminate.
Defined.

(** The token of alice is still stored once it has served. *)
Lemma resetPassword_keeps_token_row_witness :
  password_reset_token (db (snd (AuthService.resetPassword "new" "reset-token" early)))
  = [alice_token].
Proof.
  apply (resetPassword_keeps_token_row early _ "new" "reset-token"
           {| sessionId := "r1" |}).
  vm_compute. reflexivity.
Defined.

(** The token handed out to alice is recognised a second later. *)
Lemma resetPasswordRequest_then_resetPassword_witness :
  fst (AuthService.resetPassword "new" "r0"
         (at_time 6000
            (snd (AuthService.resetPasswordRequest (emailServiceInterface := delivering)
                    "https://test.com" "alice@test.com" early))))
    <> Fulfilled (failure invalid_code).
Proof.
  apply (resetPasswordRequest_then_resetPassword (emailServiceInterface := delivering)
           early _ "https://test.com" "alice@test.com" {| tokenId := "r0" |}).
  vm_compute. reflexivity.
Defined.

(** The row stored for the token ["r0"], and two requests that draw it. *)
Lemma reset_token_stored_as_digest_witness :
  map schema.passwordResetTokens.tokenHash
      (password_reset_token
         (db (snd (AuthService.resetPasswordRequest (emailServiceInterface := delivering)
                     "https://test.com" "alice@test.com" early))))
    = [sha256_hex "r0"]
  /\ db (snd (AuthService.resetPasswordRequest (emailServiceInterface := delivering)
                "https://test.com" "alice@test.com" early))
     = db (snd (AuthService.resetPasswordRequest (emailServiceInterface := delivering)
                  "https://elsewhere.org" "alice@test.com" (other_world registered 5000)))
  /\ AuthService.resetPassword "new" "reset-token" early
     = AuthService.resetPassword "new" "reset-token" early.
Proof.
  destruct (reset_token_stored_as_digest (emailServiceInterface := delivering))
    as [Hstored [Hsame Hreset]].
  split; [|split].
  - rewrite (Hstored early "https://test.com" "alice@test.com"
               alice (success {| tokenId := "r0" |}));
      [reflexivity|reflexivity|vm_compute; reflexivity].
  - apply Hsame; reflexivity.
  - apply Hreset. reflexivity.
Defined.

(** carol signs up while no mail can be sent. *)
Lemma signup_discards_send_failure_witness :
  fst (AuthService.signup (emailServiceInterface := failing) "carol@test.com" "pw" early)
    = Fulfilled (success {| sessionId := "r3" |})
  /\ fst (AuthService.createEmailVerificationCode (emailServiceInterface := failing)
            "u-alice" "alice@test.com" early)
     = Fulfilled (failure email_send_error).
Proof.
  destruct (signup_discards_send_failure (emailServiceInterface := failing)
              early "carol@test.com" "pw") as [_ [_ Hsignup]].
  destruct (signup_discards_send_failure (emailServiceInterface := failing)
              early "alice@test.com" "pw") as [_ [Hcode _]].
  split.
  - destruct Hsignup as [Hresult _].
    + intros u. listed; discriminate.
    + discriminate.
    + reflexivity.
    + intros u. listed; discriminate.
    + intros r. listed; discriminate.
    + exact Hresult.
  - apply Hcode. reflexivity.
Defined.

(** The short session of alice is renewed, her long one is not, and an
    unknown identifier is refused. *)
Lemma validateSession_outcomes_witness :
  fst (AuthService.validateSession "s-short" early)
    = Fulfilled (success {| user_of := alice_user; freshSessionId := Some "s-short" |})
  /\ fst (AuthService.validateSession "s-long" early)
     = Fulfilled (success {| user_of := alice_user; freshSessionId := None |})
  /\ fst (AuthService.validateSession "s-none" early)
     = Fulfilled (failure invalid_session).
Proof.
  split; [|split].
  - apply (proj1 (proj2 (validateSession_outcomes early "s-short") alice_short alice
                    Logic.eq_refl Logic.eq_refl Logic.eq_refl)).
    vm_compute. reflexivity.
  - apply (proj2 (proj2 (validateSession_outcomes early "s-long") alice_long alice
                    Logic.eq_refl Logic.eq_refl Logic.eq_refl)).
    vm_compute. reflexivity.
  - apply (proj1 (validateSession_outcomes early "s-none")). left. reflexivity.
Defined.

(** ** Where the code parts from the specification *)

(** C1. The email is not registered and every send fails, yet [signup]
    succeeds with a session identifier: it does not answer
    [email_send_error]. *)
Lemma signup_send_failure_counterexample :
  find (drizzle.eq schema.users.email "bob@test.com") (user (db (world empty 5000)))
    = None
  /\ (forall code, sendConfirmEmail (EmailServiceInterface := failing) "bob@test.com" code
                   = failure email_send_error)
  /\ fst (AuthService.signup (emailServiceInterface := failing) "bob@test.com" "pw"
            (world empty 5000))
     = Fulfilled (success {| sessionId := "r3" |})
  /\ fst (AuthService.signup (emailServiceInterface := failing) "bob@test.com" "pw"
            (world empty 5000))
     <> Fulfilled (failure email_send_error).
Proof.
  repeat split; try reflexivity. vm_compute. discriminate.
Qed.

(** C2. A code is stored for the user and the supplied code is another one:
    the call fails with [invalid_code] and the stored row is still there. *)
Lemma verifyEmailCode_mismatch_counterexample :
  find (drizzle.eq schema.emailVerificationCodes.userId (types.id alice_user))
       (email_verification_code (db early)) = Some alice_code
  /\ fst (AuthService.verifyEmailCode alice_user "00000000" early)
     = Fulfilled (failure invalid_code)
  /\ In alice_code
        (email_verification_code
           (db (snd (AuthService.verifyEmailCode alice_user "00000000" early)))).
Proof.
  repeat split; try reflexivity. vm_compute. left. reflexivity.
Qed.

(** C5. A session that is stored, with its user stored, fails with
    [invalid_session] once its expiry has passed; and the [freshSessionId]
    reported for a session with less than 15 days left is the identifier
    that was passed in, the store holding the same identifiers as before. *)
Lemma validateSession_counterexample :
  (find (drizzle.eq schema.sessions.id "s-short") (session (db days_later))
     = Some alice_short
   /\ find (drizzle.eq schema.users.id (schema.sessions.userId alice_short))
           (user (db days_later)) = Some alice
   /\ fst (AuthService.validateSession "s-short" days_later)
      = Fulfilled (failure invalid_session))
  /\
  (0 < schema.sessions.expiresAt alice_short - now early < fifteen_days
   /\ fst (AuthService.validateSession "s-short" early)
      = Fulfilled (success {| user_of := alice_user;
                              freshSessionId := Some "s-short" |})
   /\ map schema.sessions.id
          (session (db (snd (AuthService.validateSession "s-short" early))))
      = map schema.sessions.id (session (db early))).
Proof.
  repeat split; reflexivity.
Qed.

(** C9. The hash stored for the token ["r0"] is the plain SHA-256 digest of
    the two bytes of the token, and a request for another user, at another
    time, in a world with another random source that draws the same token
    stores the very same hash: no salt enters it. *)
Lemma reset_token_hash_counterexample :
  fst (AuthService.resetPasswordRequest (emailServiceInterface := delivering)
         "https://test.com" "alice@test.com" early)
    = Fulfilled (success {| tokenId := "r0" |})
  /\ map schema.passwordResetTokens.tokenHash
         (password_reset_token
            (db (snd (AuthService.resetPasswordRequest
                        (emailServiceInterface := delivering)
                        "https://test.com" "alice@test.com" early))))
     = [SHA256.digest_hex "r0"]
  /\ SHA256.digest_hex "r0"
     = "dd191696e15e2ee293410d02454c5f9461a2249dee6d57c75f264eaeb83a3782"
  /\ map schema.passwordResetTokens.tokenHash
         (password_reset_token
            (db (snd (AuthService.resetPasswordRequest
                        (emailServiceInterface := delivering)
                        "https://test.com" "bob@test.com"
                        (other_world registered (2 * day))))))
     = [reset_token_digest; SHA256.digest_hex "r0"].
Proof.
  repeat split; vm_compute; reflexivity.
Qed.

(** C4. The token of alice is stored and has not expired, yet with an empty
    new password [resetPassword] does not succeed: the runtime refuses to
    hash it, after the sessions of alice have been deleted and before any
    password hash is replaced. *)
Lemma resetPassword_empty_password_counterexample :
  find (drizzle.eq schema.passwordResetTokens.tokenHash (sha256_hex "reset-token"))
       (password_reset_token (db early)) = Some alice_token
  /\ now early <= schema.passwordResetTokens.expiresAt alice_token
  /\ fst (AuthService.resetPassword "" "reset-token" early)
     = Rejected (TypeError "password must not be empty")
  /\ sessions_of "u-alice" (db (snd (AuthService.resetPassword "" "reset-token" early)))
     = []
  /\ user (db (snd (AuthService.resetPassword "" "reset-token" early)))
     = user (db early).
Proof.
  repeat split; vm_compute; first [reflexivity | discriminate].
Qed.

End OnExamples.

(** * More of the service *)

(** ** Clocks and lists *)

Lemma timestamp_bounds (date : Z) :
  date - 1000 < drizzle.timestamp date <= date.
Proof.
  unfold drizzle.timestamp.
  pose proof (Z.div_mod date 1000 ltac:(lia)).
  pose proof (Z.mod_pos_bound date 1000 ltac:(lia)). lia.
Qed.

Lemma find_map_same {A} (p : A -> bool) (g : A -> A) (l : list A) :
  (forall a, p (g a) = p a) -> find p (map g l) = option_map g (find p l).
Proof.
  intros Hp. induction l as [|a l IH]; simpl; [reflexivity|].
  rewrite Hp. destruct (p a); [reflexivity|exact IH].
Qed.

Lemma find_unique {A} (f : A -> string) (l : list A) (a : A) :
  NoDup (map f l) -> In a l -> find (drizzle.eq f (f a)) l = Some a.
Proof.
  induction l as [|b l IH]; intros Hnd Hin; [contradiction|].
  simpl in Hnd. inversion Hnd as [|? ? Hnotin Hnd']; subst.
  simpl. unfold drizzle.eq at 1.
  destruct Hin as [->|Hin]; [rewrite String.eqb_refl; reflexivity|].
  destruct (String.eqb (f b) (f a)) eqn:E; [|auto].
  apply String.eqb_eq in E. exfalso. apply Hnotin. rewrite E. now apply in_map.
Qed.

Section Compositions.
Context {emailServiceInterface : EmailServiceInterface} {bun : BunRuntime}.

(** A successful [signup], step by step. *)
Lemma signup_success (w w' : World) (email password : string) (data : SessionData) :
  AuthService.signup email password w = (Fulfilled (success data), w') ->
  let salt := entropy w (drawn w) in
  let uid := entropy w (S (drawn w)) in
  let code := entropy w (S (S (drawn w))) in
  let sid := entropy w (S (S (S (drawn w)))) in
  let kept := filter (fun r => negb (drizzle.eq schema.emailVerificationCodes.userId uid r))
                     (email_verification_code (db w)) in
  find (drizzle.eq schema.users.email email) (user (db w)) = None
  /\ sessionId data = sid
  /\ unused_session_id sid (session (db w))
  /\ w' = {| db := {| user := (user (db w)
                               ++ [new_user uid email (password_hash_salted password salt)
                                            (now w)])%list;
                      session := (session (db w) ++ [new_session sid uid (now w)])%list;
                      email_verification_code :=
                        (kept ++ [new_code kept code uid email (now w)])%list;
                      password_reset_token := password_reset_token (db w) |};
             now := now w; entropy := entropy w;
             drawn := S (S (S (S (drawn w)))) |}.
Proof.
  intros Hrun salt uid code sid kept. revert Hrun.
  unfold AuthService.signup. run.
  destruct (find _ _); [discriminate|].
  destruct (String.eqb password ""); run; [discriminate|].
  destruct (existsb _ _); [discriminate|].
  rewrite createEmailVerificationCode_run.
  cbn [fst snd db now entropy drawn user session email_verification_code].
  unfold Lucia.createSession. run.
  destruct (existsb _ (session (db w))) eqn:Hclash; [discriminate|].
  intros Hrun. injection Hrun as Hdata Hw'. subst data w'.
  repeat split.
  intros r Hr E. pose proof (existsb_none _ _ Hclash r Hr) as H.
  cbn in H. unfold sid in E. rewrite E, String.eqb_refl in H. discriminate.
Qed.

(** X1. The failures each method can answer, as [AuthServiceInterface]
    types them: [validateSession] only [invalid_session]; [signup] only
    [user_exists]; [login] only [user_not_found] or [invalid_credentials];
    [createEmailVerificationCode] only [email_send_error]; [verifyEmailCode]
    only [invalid_code] or [expired_code]; [resetPasswordRequest] only
    [email_not_found] or [email_send_error]; [resetPassword] only
    [invalid_code] or [code_expired]; and [logout] always answers success. *)
Theorem failure_kinds (w : World) :
  (forall sessionId e,
     fst (AuthService.validateSession sessionId w) = Fulfilled (failure e) ->
     e = invalid_session)
  /\ (forall email password e,
        fst (AuthService.signup email password w) = Fulfilled (failure e) ->
        e = user_exists)
  /\ (forall email password e,
        fst (AuthService.login email password w) = Fulfilled (failure e) ->
        e = user_not_found \/ e = invalid_credentials)
  /\ (forall userId email e,
        fst (AuthService.createEmailVerificationCode userId email w)
          = Fulfilled (failure e) ->
        e = email_send_error)
  /\ (forall usr code e,
        fst (AuthService.verifyEmailCode usr code w) = Fulfilled (failure e) ->
        e = invalid_code \/ e = expired_code)
  /\ (forall sessionId,
        fst (AuthService.logout sessionId w) = Fulfilled (success tt))
  /\ (forall domain email e,
        fst (AuthService.resetPasswordRequest domain email w) = Fulfilled (failure e) ->
        e = email_not_found \/ e = email_send_error)
  /\ (forall newPassword token e,
        fst (AuthService.resetPassword newPassword token w) = Fulfilled (failure e) ->
        e = invalid_code \/ e = code_expired).
Proof.
  repeat apply conj.
  - intros sessionId e.
    unfold AuthService.validateSession, Lucia.validateSession, Lucia.getSessionAndUser.
    run.
    destruct (find _ (session (db w))) as [s0|]; cbn [fst]; [|congruence].
    destruct (find _ (user (db w))) as [u|]; cbn [fst]; [|congruence].
    destruct (now w <? _); cbn [negb fst]; [|congruence].
    destruct (negb _); cbn [fst Lucia.fresh]; discriminate.
  - intros email password e. unfold AuthService.signup. run.
    destruct (find _ _); [cbn; congruence|].
    destruct (String.eqb password ""); run; [discriminate|].
    destruct (existsb _ _); [discriminate|].
    rewrite createEmailVerificationCode_run.
    session_cases; discriminate.
  - intros email password e. unfold AuthService.login. run.
    destruct (find _ _) as [u|]; [|cbn; intros [= <-]; now left].
    destruct (negb _); [cbn; intros [= <-]; now right|].
    session_cases; discriminate.
  - intros userId email e. rewrite createEmailVerificationCode_run. cbn [fst].
    destruct (is_failure _); congruence.
  - intros usr code e.
    unfold AuthService.verifyEmailCode, AuthService.checkEmailCode. run.
    destruct (find _ _) as [row|]; [|cbn; intros [= <-]; now left].
    destruct (negb (String.eqb code _)); [cbn; intros [= <-]; now left|].
    destruct (_ <? _); [cbn; intros [= <-]; now right|].
    destruct (negb _); [cbn; intros [= <-]; now right|].
    session_cases; discriminate.
  - intros sessionId. reflexivity.
  - intros domain email e.
    unfold AuthService.resetPasswordRequest, AuthService.createPasswordResetToken. run.
    destruct (find _ _) as [u|]; [|cbn; intros [= <-]; now left].
    destruct (existsb _ _); [discriminate|].
    destruct (is_failure _); [cbn; intros [= <-]; now right|discriminate].
  - intros newPassword token e. unfold AuthService.resetPassword. run.
    destruct (find _ _) as [t|]; [|cbn; intros [= <-]; now left].
    destruct (_ <? _); [cbn; intros [= <-]; now right|].
    destruct (String.eqb newPassword ""); run; [discriminate|].
    session_cases; discriminate.
Qed.

(** X2. A failed [signup], [login] or [resetPassword], and a
    [resetPasswordRequest] answered [email_not_found], leave the world as it
    was: nothing is stored and nothing is drawn from the random source. *)
Theorem failures_without_effect (w : World) (e : ErrorKind) :
  (forall email password,
     fst (AuthService.signup email password w) = Fulfilled (failure e) ->
     snd (AuthService.signup email password w) = w)
  /\ (forall email password,
        fst (AuthService.login email password w) = Fulfilled (failure e) ->
        snd (AuthService.login email password w) = w)
  /\ (forall newPassword token,
        fst (AuthService.resetPassword newPassword token w) = Fulfilled (failure e) ->
        snd (AuthService.resetPassword newPassword token w) = w)
  /\ (forall domain email,
        fst (AuthService.resetPasswordRequest domain email w)
          = Fulfilled (failure email_not_found) ->
        snd (AuthService.resetPasswordRequest domain email w) = w).
Proof.
  repeat apply conj.
  - intros email password. unfold AuthService.signup. run.
    destruct (find _ _); [reflexivity|].
    destruct (String.eqb password ""); run; [discriminate|].
    destruct (existsb _ _); [discriminate|].
    rewrite createEmailVerificationCode_run.
    session_cases; discriminate.
  - intros email password. unfold AuthService.login. run.
    destruct (find _ _) as [u|]; [|reflexivity].
    destruct (negb _); [reflexivity|].
    session_cases; discriminate.
  - intros newPassword token. unfold AuthService.resetPassword. run.
    destruct (find _ _) as [t|]; [|reflexivity].
    destruct (_ <? _); [reflexivity|].
    destruct (String.eqb newPassword ""); run; [discriminate|].
    session_cases; discriminate.
  - intros domain email.
    unfold AuthService.resetPasswordRequest, AuthService.createPasswordResetToken. run.
    destruct (find _ _) as [u|]; [|reflexivity].
    destruct (existsb _ _); [discriminate|].
    destruct (is_failure _); discriminate.
Qed.

(** X3. Once [signup] has succeeded for an email, any later [signup] with
    that email, whatever the password, fails with [user_exists] and changes
    nothing. *)
Theorem signup_twice (w w' : World) (email password : string) (data : SessionData) :
  AuthService.signup email password w = (Fulfilled (success data), w') ->
  forall (later : Z) (password' : string),
    AuthService.signup email password' (at_time later w')
    = (Fulfilled (failure user_exists), at_time later w').
Proof.
  intros Hrun later password'.
  destruct (signup_success _ _ _ _ _ Hrun) as [_ [_ [_ Hw']]].
  destruct (find_present (drizzle.eq schema.users.email email)
              (user (db (at_time later w')))
              (new_user (entropy w (S (drawn w))) email
                 (password_hash_salted password (entropy w (drawn w))) (now w)))
    as [u' Hfind].
  { rewrite Hw'. cbn [at_time db user]. apply in_app_iff. right. now left. }
  { unfold drizzle.eq, new_user. cbn. apply String.eqb_refl. }
  unfold AuthService.signup. run. cbn [at_time db] in *. rewrite Hfind. reflexivity.
Qed.

(** X4. After a successful [signup], provided the runtime verifies a
    password against the hash it made of it, [login] with the same email and
    password does not fail; it succeeds with the identifier drawn when that
    identifier is not in use. *)
Theorem signup_then_login (w w' : World) (email password : string) (data : SessionData) :
  AuthService.signup email password w = (Fulfilled (success data), w') ->
  password_verify password (password_hash_salted password (entropy w (drawn w))) = true ->
  forall later : Z,
    (forall e, fst (AuthService.login email password (at_time later w'))
               <> Fulfilled (failure e))
    /\ (unused_session_id (entropy w' (drawn w')) (session (db w')) ->
        fst (AuthService.login email password (at_time later w'))
        = Fulfilled (success {| sessionId := entropy w' (drawn w') |})).
Proof.
  intros Hrun Hverify later.
  destruct (signup_success _ _ _ _ _ Hrun) as [Hnone [_ [_ Hw']]].
  assert (Hfind : find (drizzle.eq schema.users.email email) (user (db (at_time later w')))
                  = Some (new_user (entropy w (S (drawn w))) email
                            (password_hash_salted password (entropy w (drawn w))) (now w))).
  { rewrite Hw'. cbn [at_time db user].
    rewrite find_app_absent; [|exact (find_none _ _ Hnone)].
    cbn [find]. unfold drizzle.eq at 1. cbn [new_user schema.users.email].
    rewrite String.eqb_refl. reflexivity. }
  unfold AuthService.login. run. rewrite Hfind.
  cbn [new_user schema.users.passwordHash schema.users.id]. rewrite Hverify. cbn [negb].
  split.
  - intros e. session_cases; discriminate.
  - intros Hfresh. rewrite createSession_run; [reflexivity|exact Hfresh].
Qed.

(** A successful [login], step by step. *)
Lemma login_success (w w' : World) (email password : string) (data : SessionData) :
  AuthService.login email password w = (Fulfilled (success data), w') ->
  exists u,
    find (drizzle.eq schema.users.email email) (user (db w)) = Some u
    /\ password_verify password (schema.users.passwordHash u) = true
    /\ sessionId data = entropy w (drawn w)
    /\ unused_session_id (sessionId data) (session (db w))
    /\ w' = {| db := {| user := user (db w);
                        session := (session (db w)
                                    ++ [new_session (sessionId data) (schema.users.id u)
                                                    (now w)])%list;
                        email_verification_code := email_verification_code (db w);
                        password_reset_token := password_reset_token (db w) |};
               now := now w; entropy := entropy w; drawn := S (drawn w) |}.
Proof.
  unfold AuthService.login. run.
  destruct (find _ _) as [u|]; [|discriminate].
  destruct (password_verify _ _) eqn:Hverify; cbn [negb]; [|discriminate].
  unfold Lucia.createSession. run.
  destruct (existsb _ _) eqn:Hclash; [discriminate|].
  intros Hrun. injection Hrun as Hdata Hw'. subst data w'.
  exists u. cbn [sessionId].
  split; [reflexivity|]. split; [exact Hverify|]. split; [reflexivity|].
  split; [|reflexivity].
  intros r Hr E. pose proof (existsb_none _ _ Hclash r Hr) as H.
  cbn in H. rewrite E, String.eqb_refl in H. discriminate.
Qed.

(** X7. [logout] removes the rows of the session table that carry the
    identifier, and nothing else: the other sessions, the users, the codes
    and the reset tokens stay. *)
Theorem logout_removes_session (w : World) (sessionId : string) :
  (forall r, In r (session (db (snd (AuthService.logout sessionId w))))
             <-> In r (session (db w)) /\ schema.sessions.id r <> sessionId)
  /\ user (db (snd (AuthService.logout sessionId w))) = user (db w)
  /\ email_verification_code (db (snd (AuthService.logout sessionId w)))
     = email_verification_code (db w)
  /\ password_reset_token (db (snd (AuthService.logout sessionId w)))
     = password_reset_token (db w).
Proof.
  unfold AuthService.logout, try_catch, Lucia.invalidateSession. run.
  repeat split; try tauto.
  - apply filter_In in H. tauto.
  - apply filter_In in H. destruct H as [_ H]. apply negb_true_iff in H.
    apply String.eqb_neq. exact H.
  - intros [Hin Hid]. apply filter_In. split; [exact Hin|].
    apply negb_true_iff. apply String.eqb_neq. exact Hid.
Qed.

(** X8. After [logout], [validateSession] with the same identifier fails
    with [invalid_session], at whatever time. *)
Theorem logout_then_validateSession (w : World) (sessionId : string) (later : Z) :
  fst (AuthService.validateSession sessionId
         (at_time later (snd (AuthService.logout sessionId w))))
  = Fulfilled (failure invalid_session).
Proof.
  unfold AuthService.logout, try_catch, Lucia.invalidateSession.
  unfold AuthService.validateSession, Lucia.validateSession, Lucia.getSessionAndUser.
  run. cbn [at_time db session].
  rewrite find_absent; [reflexivity|].
  intros r Hr. apply filter_In in Hr. destruct Hr as [_ Hr].
  apply negb_true_iff in Hr. exact Hr.
Qed.

(** X5. The life of the session a successful [login] creates, user ids
    being unique: validated up to 15 days (less a second) after the login it
    is accepted with no [freshSessionId] and nothing is written; validated
    from 15 days up to 30 days (less a second) after, it is accepted with
    its own identifier as [freshSessionId]; from 30 days on it is refused
    with [invalid_session]. *)
Theorem login_session_lifecycle (w w' : World) (email password : string)
        (data : SessionData) :
  AuthService.login email password w = (Fulfilled (success data), w') ->
  NoDup (map schema.users.id (user (db w))) ->
  exists u,
    find (drizzle.eq schema.users.email email) (user (db w)) = Some u
    /\ forall later : Z,
         (later <= now w + fifteen_days - 1000 ->
          AuthService.validateSession (sessionId data) (at_time later w')
          = (Fulfilled (success {| user_of := Lucia.getUserAttributes u;
                                   freshSessionId := None |}),
             at_time later w'))
         /\ (now w + fifteen_days <= later <= now w + 2 * fifteen_days - 1000 ->
             fst (AuthService.validateSession (sessionId data) (at_time later w'))
             = Fulfilled (success {| user_of := Lucia.getUserAttributes u;
                                     freshSessionId := Some (sessionId data) |}))
         /\ (now w + 2 * fifteen_days <= later ->
             fst (AuthService.validateSession (sessionId data) (at_time later w'))
             = Fulfilled (failure invalid_session)).
Proof.
  intros Hrun Hnodup.
  destruct (login_success _ _ _ _ _ Hrun) as [u [Hu [_ [_ [Hfresh Hw']]]]].
  exists u. split; [exact Hu|]. intros later.
  set (sid := sessionId data) in *.
  assert (Hs : find (drizzle.eq schema.sessions.id sid) (session (db (at_time later w')))
               = Some (new_session sid (schema.users.id u) (now w))).
  { rewrite Hw'. cbn [at_time db session].
    rewrite find_app_absent.
    - cbn [find]. unfold drizzle.eq at 1. cbn [new_session schema.sessions.id].
      rewrite String.eqb_refl. reflexivity.
    - intros r Hr. apply String.eqb_neq. exact (Hfresh r Hr). }
  assert (Hu' : find (drizzle.eq schema.users.id (schema.users.id u))
                     (user (db (at_time later w'))) = Some u).
  { rewrite Hw'. cbn [at_time db user]. apply find_unique; [exact Hnodup|].
    apply find_some in Hu. tauto. }
  pose proof (timestamp_bounds (now w + oslo.milliseconds Lucia.sessionExpiresIn)) as Hts.
  assert (Hlife : oslo.milliseconds Lucia.sessionExpiresIn = 2 * fifteen_days)
    by reflexivity.
  assert (Hlong : 1000 < fifteen_days) by reflexivity.
  unfold AuthService.validateSession, Lucia.validateSession, Lucia.getSessionAndUser.
  run. rewrite Hs. cbn [fst snd new_session schema.sessions.userId schema.sessions.expiresAt
                        schema.sessions.id].
  rewrite Hu'. cbn [at_time now]. rewrite half_lifetime.
  split; [|split]; intros Hlater.
  - destruct (Z.ltb_spec later
                (drizzle.timestamp (now w + oslo.milliseconds Lucia.sessionExpiresIn)));
      [|lia].
    cbn [negb at_time now].
    destruct (Z.ltb_spec later
                (drizzle.timestamp (now w + oslo.milliseconds Lucia.sessionExpiresIn)
                 - fifteen_days)); [|lia].
    reflexivity.
  - destruct (Z.ltb_spec later
                (drizzle.timestamp (now w + oslo.milliseconds Lucia.sessionExpiresIn)));
      [|lia].
    cbn [negb at_time now].
    destruct (Z.ltb_spec later
                (drizzle.timestamp (now w + oslo.milliseconds Lucia.sessionExpiresIn)
                 - fifteen_days)); [lia|].
    reflexivity.
  - destruct (Z.ltb_spec later
                (drizzle.timestamp (now w + oslo.milliseconds Lucia.sessionExpiresIn)));
      [lia|].
    reflexivity.
Qed.

(** X9. [createEmailVerificationCode] is never rejected by the store, and
    whatever the email service answers it leaves exactly one code for the
    user: the code drawn, for the email given, expiring within the last
    second of 15 minutes from now.  The codes of other users and the other
    tables stay as they were. *)
Theorem createEmailVerificationCode_replaces_code (w : World) (userId email : string) :
  (exists result,
     fst (AuthService.createEmailVerificationCode userId email w) = Fulfilled result)
  /\ (exists row,
        filter (drizzle.eq schema.emailVerificationCodes.userId userId)
               (email_verification_code
                  (db (snd (AuthService.createEmailVerificationCode userId email w))))
        = [row]
        /\ schema.emailVerificationCodes.code row = entropy w (drawn w)
        /\ schema.emailVerificationCodes.email row = email
        /\ now w + 900000 - 1000 < schema.emailVerificationCodes.expiresAt row
           <= now w + 900000)
  /\ (forall r, schema.emailVerificationCodes.userId r <> userId ->
        (In r (email_verification_code
                 (db (snd (AuthService.createEmailVerificationCode userId email w))))
         <-> In r (email_verification_code (db w))))
  /\ user (db (snd (AuthService.createEmailVerificationCode userId email w)))
     = user (db w)
  /\ session (db (snd (AuthService.createEmailVerificationCode userId email w)))
     = session (db w)
  /\ password_reset_token (db (snd (AuthService.createEmailVerificationCode userId email w)))
     = password_reset_token (db w).
Proof.
  rewrite createEmailVerificationCode_run.
  cbn [fst snd db user session email_verification_code password_reset_token].
  split; [eexists; reflexivity|].
  split; [|split; [|repeat split]].
  - eexists. split; [|split; [|split]].
    + apply (filter_complement_app
               (drizzle.eq schema.emailVerificationCodes.userId userId)).
      unfold drizzle.eq, new_code. cbn. apply String.eqb_refl.
    + reflexivity.
    + reflexivity.
    + cbn [new_code schema.emailVerificationCodes.expiresAt].
      pose proof (timestamp_bounds
                    (now w + oslo.milliseconds {| oslo.value := 15; oslo.unit := oslo.m |}))
        as Hts.
      change (oslo.milliseconds {| oslo.value := 15; oslo.unit := oslo.m |})
        with 900000 in *.
      lia.
  - intros r Hr. rewrite in_app_iff, filter_In. split.
    + intros [[Hin _]|[<-|[]]]; [exact Hin|]. exfalso. apply Hr. reflexivity.
    + intros Hin. left. split; [exact Hin|].
      apply negb_true_iff. apply String.eqb_neq. exact Hr.
Qed.

(** The successful path of [verifyEmailCode], step by step. *)
Lemma verifyEmailCode_valid_run (w : World) (usr : types.User) (code : string)
      (row : schema.emailVerificationCodes.Row) :
  find (drizzle.eq schema.emailVerificationCodes.userId (types.id usr))
       (email_verification_code (db w)) = Some row ->
  code = schema.emailVerificationCodes.code row ->
  now w <= schema.emailVerificationCodes.expiresAt row ->
  schema.emailVerificationCodes.email row = types.email usr ->
  unused_session_id (entropy w (drawn w))
    (filter (fun r => negb (drizzle.eq schema.sessions.userId (types.id usr) r))
            (session (db w))) ->
  fst (AuthService.verifyEmailCode usr code w)
  = Fulfilled (success {| sessionId := entropy w (drawn w) |}).
Proof.
  intros Hfind Hcode Hlive Hmail Hfresh.
  unfold AuthService.verifyEmailCode. unfold bind at 1.
  rewrite (checkEmailCode_match _ _ _ _ Hfind Hcode).
  destruct (Z.ltb_spec (schema.emailVerificationCodes.expiresAt row) (now w)) as [Hlt|_];
    [lia|].
  rewrite Hmail, String.eqb_refl. cbn [negb].
  run.
  rewrite createSession_run; [reflexivity|exact Hfresh].
Qed.

(** X10. The code [createEmailVerificationCode] has drawn for a user and
    their email, presented by that user up to 15 minutes (less a second)
    later, makes [verifyEmailCode] succeed, the session identifier drawn not
    being in use; this holds even when the mail could not be sent. *)
Theorem createEmailVerificationCode_then_verifyEmailCode
        (w : World) (usr : types.User) (later : Z) :
  later <= now w + 900000 - 1000 ->
  unused_session_id (entropy w (S (drawn w))) (session (db w)) ->
  fst (AuthService.verifyEmailCode usr (entropy w (drawn w))
         (at_time later
            (snd (AuthService.createEmailVerificationCode
                    (types.id usr) (types.email usr) w))))
  = Fulfilled (success {| sessionId := entropy w (S (drawn w)) |}).
Proof.
  intros Hlater Hfresh.
  rewrite createEmailVerificationCode_run. cbn [snd].
  set (kept := filter _ (email_verification_code (db w))).
  pose proof (timestamp_bounds
                (now w + oslo.milliseconds {| oslo.value := 15; oslo.unit := oslo.m |}))
    as Hts.
  change (oslo.milliseconds {| oslo.value := 15; oslo.unit := oslo.m |})
    with 900000 in Hts.
  match goal with
  | |- fst (AuthService.verifyEmailCode _ _ ?w1) = _ =>
      apply (verifyEmailCode_valid_run w1 usr _
               (new_code kept (entropy w (drawn w)) (types.id usr) (types.email usr)
                         (now w)))
  end.
  - cbn [at_time db email_verification_code].
    rewrite find_app_absent.
    + cbn [find]. unfold drizzle.eq at 1. cbn [new_code schema.emailVerificationCodes.userId].
      rewrite String.eqb_refl. reflexivity.
    + intros r Hr. apply filter_In in Hr. destruct Hr as [_ Hr].
      apply negb_true_iff in Hr. exact Hr.
  - reflexivity.
  - cbn [at_time now new_code schema.emailVerificationCodes.expiresAt].
    change (oslo.milliseconds {| oslo.value := 15; oslo.unit := oslo.m |}) with 900000.
    lia.
  - reflexivity.
  - cbn [at_time db session entropy drawn]. apply unused_after_delete. exact Hfresh.
Qed.

(** X11. A [verifyEmailCode] that fails writes neither the users nor the
    sessions nor the reset tokens: the account stays unverified and signed
    in. *)
Theorem verifyEmailCode_failure_keeps_account (w : World) (usr : types.User)
        (code : string) (e : ErrorKind) :
  fst (AuthService.verifyEmailCode usr code w) = Fulfilled (failure e) ->
  user (db (snd (AuthService.verifyEmailCode usr code w))) = user (db w)
  /\ session (db (snd (AuthService.verifyEmailCode usr code w))) = session (db w)
  /\ password_reset_token (db (snd (AuthService.verifyEmailCode usr code w)))
     = password_reset_token (db w).
Proof.
  unfold AuthService.verifyEmailCode, AuthService.checkEmailCode. run.
  destruct (find _ _) as [row|]; [|cbn; auto].
  destruct (negb (String.eqb code _)); [cbn; auto|].
  destruct (_ <? _); [cbn; auto|].
  destruct (negb _); [cbn; auto|].
  session_cases; discriminate.
Qed.

Lemma unique_key {A B} (f : A -> B) (l : list A) (a b : A) :
  NoDup (map f l) -> In a l -> In b l -> f a = f b -> a = b.
Proof.
  induction l as [|c l IH]; intros Hnd Ha Hb Hf; [contradiction|].
  simpl in Hnd. inversion Hnd as [|? ? Hnotin Hnd']; subst.
  destruct Ha as [->|Ha], Hb as [->|Hb]; auto.
  - exfalso. apply Hnotin. rewrite Hf. now apply in_map.
  - exfalso. apply Hnotin. rewrite <- Hf. now apply in_map.
Qed.

(** Whatever the outcome, a matching attempt leaves the table of codes
    without the row it matched. *)
Lemma verifyEmailCode_match_codes (w : World) (usr : types.User) (code : string)
      (row : schema.emailVerificationCodes.Row) :
  find (drizzle.eq schema.emailVerificationCodes.userId (types.id usr))
       (email_verification_code (db w)) = Some row ->
  code = schema.emailVerificationCodes.code row ->
  email_verification_code (db (snd (AuthService.verifyEmailCode usr code w)))
  = without_code (schema.emailVerificationCodes.id row) (email_verification_code (db w)).
Proof.
  intros Hfind Hcode.
  unfold AuthService.verifyEmailCode. unfold bind at 1.
  rewrite (checkEmailCode_match _ _ _ _ Hfind Hcode).
  destruct (if schema.emailVerificationCodes.expiresAt row <? now w
            then expired
            else if negb (String.eqb (schema.emailVerificationCodes.email row)
                                     (types.email usr))
                 then expired else valid); try reflexivity.
  run.
  match goal with
  | |- context [Lucia.createSession ?u ?w0] =>
      pose proof (createSession_frame u w0) as Hframe;
      destruct (Lucia.createSession u w0) as [[session0|reason] w1]
  end; cbn [snd fst] in *; destruct Hframe as [_ [Hframe _]];
    rewrite Hframe; reflexivity.
Qed.

(** X12. A verification code is good for one matching attempt: once the
    stored code has been presented, whether it was accepted or found
    expired, every later [verifyEmailCode] of that user fails with
    [invalid_code] and changes nothing, user ids being unique in the table of
    codes. *)
Theorem verifyEmailCode_single_use (w : World) (usr : types.User) (code : string)
        (row : schema.emailVerificationCodes.Row) :
  find (drizzle.eq schema.emailVerificationCodes.userId (types.id usr))
       (email_verification_code (db w)) = Some row ->
  code = schema.emailVerificationCodes.code row ->
  NoDup (map schema.emailVerificationCodes.userId (email_verification_code (db w))) ->
  forall (later : Z) (again : string),
    AuthService.verifyEmailCode usr again
      (at_time later (snd (AuthService.verifyEmailCode usr code w)))
    = (Fulfilled (failure invalid_code),
       at_time later (snd (AuthService.verifyEmailCode usr code w))).
Proof.
  intros Hfind Hcode Hnodup later again.
  pose proof (verifyEmailCode_match_codes _ _ _ _ Hfind Hcode) as Hcodes.
  set (w' := snd (AuthService.verifyEmailCode usr code w)) in *.
  assert (Hnone : find (drizzle.eq schema.emailVerificationCodes.userId (types.id usr))
                       (email_verification_code (db (at_time later w'))) = None).
  { cbn [at_time db]. rewrite Hcodes. apply find_absent. intros r Hr.
    apply without_code_In in Hr. destruct Hr as [Hin Hid].
    destruct (drizzle.eq schema.emailVerificationCodes.userId (types.id usr) r) eqn:E;
      [|reflexivity].
    exfalso. apply Hid. f_equal.
    apply find_some in Hfind. destruct Hfind as [Hrow Huid].
    apply (unique_key schema.emailVerificationCodes.userId _ _ _ Hnodup Hin Hrow).
    unfold drizzle.eq in *. apply String.eqb_eq in E, Huid. congruence. }
  unfold AuthService.verifyEmailCode at 1, AuthService.checkEmailCode. run.
  rewrite Hnone. reflexivity.
Qed.

(** [resetPasswordRequest] for a known email, when the store takes the new
    row: what is stored and what is answered. *)
Lemma resetPasswordRequest_stored (w : World) (domain email : string)
      (u : schema.users.Row) (result : Result TokenData) :
  find (drizzle.eq schema.users.email email) (user (db w)) = Some u ->
  fst (AuthService.resetPasswordRequest domain email w) = Fulfilled result ->
  let token := entropy w (drawn w) in
  result = (if is_failure (sendResetPasswordEmail email
                             (domain ++ "/reset-password?token=" ++ token))
            then failure email_send_error
            else success {| tokenId := token |})
  /\ snd (AuthService.resetPasswordRequest domain email w) =
     {| db := {| user := user (db w);
                 session := session (db w);
                 email_verification_code := email_verification_code (db w);
                 password_reset_token :=
                   (filter (fun r => negb (drizzle.eq schema.passwordResetTokens.userId
                                                      (schema.users.id u) r))
                           (password_reset_token (db w))
                    ++ [new_reset_token (sha256_hex token) (schema.users.id u) (now w)])%list |};
        now := now w; entropy := entropy w; drawn := S (drawn w) |}.
Proof.
  intros Hu.
  unfold AuthService.resetPasswordRequest, AuthService.createPasswordResetToken. run.
  rewrite Hu.
  destruct (existsb _ _); [discriminate|].
  destruct (is_failure _); cbn [fst snd]; intros [= <-]; split; reflexivity.
Qed.

(** X13. When [resetPasswordRequest] finds the user and the mail cannot be
    sent, it answers [email_send_error], yet the row for the token drawn is
    stored, and a [resetPassword] with that token is not answered
    [invalid_code]. *)
Theorem resetPasswordRequest_send_failure (w : World) (domain email : string)
        (u : schema.users.Row) (result : Result TokenData) :
  find (drizzle.eq schema.users.email email) (user (db w)) = Some u ->
  is_failure (sendResetPasswordEmail email
                (domain ++ "/reset-password?token=" ++ entropy w (drawn w))) = true ->
  fst (AuthService.resetPasswordRequest domain email w) = Fulfilled result ->
  result = failure email_send_error
  /\ In (new_reset_token (sha256_hex (entropy w (drawn w))) (schema.users.id u) (now w))
        (password_reset_token (db (snd (AuthService.resetPasswordRequest domain email w))))
  /\ forall (later : Z) (newPassword : string),
       fst (AuthService.resetPassword newPassword (entropy w (drawn w))
              (at_time later (snd (AuthService.resetPasswordRequest domain email w))))
       <> Fulfilled (failure invalid_code).
Proof.
  intros Hu Hfail Hrun.
  destruct (resetPasswordRequest_stored _ _ _ _ _ Hu Hrun) as [Hresult Hw'].
  rewrite Hfail in Hresult. split; [exact Hresult|].
  set (w' := snd (AuthService.resetPasswordRequest domain email w)) in *.
  assert (Hin : In (new_reset_token (sha256_hex (entropy w (drawn w)))
                      (schema.users.id u) (now w))
                   (password_reset_token (db w'))).
  { rewrite Hw'. cbn [db password_reset_token]. apply in_app_iff. right. now left. }
  split; [exact Hin|].
  intros later newPassword.
  destruct (find_present
              (drizzle.eq schema.passwordResetTokens.tokenHash
                 (sha256_hex (entropy w (drawn w))))
              (password_reset_token (db (at_time later w'))) _ Hin) as [t Hfind].
  { unfold drizzle.eq, new_reset_token. cbn. apply String.eqb_refl. }
  exact (proj1 (resetPassword_found (at_time later w') newPassword _ t Hfind)).
Qed.

(** X14. A new [resetPasswordRequest] supersedes the user's earlier token:
    afterwards the user has exactly one row, the new one, and a
    [resetPassword] with the earlier token fails with [invalid_code] and
    changes nothing (token hashes being unique, and the new token's digest
    not being the old one's). *)
Theorem resetPasswordRequest_supersedes (w : World) (domain email : string)
        (u : schema.users.Row) (t : schema.passwordResetTokens.Row)
        (result : Result TokenData) :
  find (drizzle.eq schema.users.email email) (user (db w)) = Some u ->
  In t (password_reset_token (db w)) ->
  schema.passwordResetTokens.userId t = schema.users.id u ->
  NoDup (map schema.passwordResetTokens.tokenHash (password_reset_token (db w))) ->
  schema.passwordResetTokens.tokenHash t <> sha256_hex (entropy w (drawn w)) ->
  fst (AuthService.resetPasswordRequest domain email w) = Fulfilled result ->
  filter (drizzle.eq schema.passwordResetTokens.userId (schema.users.id u))
         (password_reset_token (db (snd (AuthService.resetPasswordRequest domain email w))))
  = [new_reset_token (sha256_hex (entropy w (drawn w))) (schema.users.id u) (now w)]
  /\ forall (later : Z) (newPassword old : string),
       sha256_hex old = schema.passwordResetTokens.tokenHash t ->
       AuthService.resetPassword newPassword old
         (at_time later (snd (AuthService.resetPasswordRequest domain email w)))
       = (Fulfilled (failure invalid_code),
          at_time later (snd (AuthService.resetPasswordRequest domain email w))).
Proof.
  intros Hu Ht Huid Hnodup Hnew Hrun.
  destruct (resetPasswordRequest_stored _ _ _ _ _ Hu Hrun) as [_ Hw'].
  set (w' := snd (AuthService.resetPasswordRequest domain email w)) in *.
  split.
  - rewrite Hw'. cbn [db password_reset_token].
    apply (filter_complement_app
             (drizzle.eq schema.passwordResetTokens.userId (schema.users.id u))).
    unfold drizzle.eq, new_reset_token. cbn. apply String.eqb_refl.
  - intros later newPassword old Hold.
    assert (Hnone : find (drizzle.eq schema.passwordResetTokens.tokenHash (sha256_hex old))
                         (password_reset_token (db (at_time later w'))) = None).
    { cbn [at_time db]. rewrite Hw'. cbn [db password_reset_token].
      apply find_absent. intros r Hr. unfold drizzle.eq at 1.
      apply String.eqb_neq. rewrite Hold. intros E.
      apply in_app_iff in Hr. destruct Hr as [Hr|[<-|[]]].
      - apply filter_In in Hr. destruct Hr as [Hin Hother].
        assert (r = t) by exact (unique_key _ _ _ _ Hnodup Hin Ht E). subst r.
        unfold drizzle.eq in Hother. rewrite Huid, String.eqb_refl in Hother.
        discriminate.
      - cbn in E. congruence. }
    unfold AuthService.resetPassword. run. rewrite Hnone. reflexivity.
Qed.

(** A successful [resetPassword], step by step. *)
Lemma resetPassword_success (w w' : World) (newPassword token : string)
      (data : SessionData) :
  AuthService.resetPassword newPassword token w = (Fulfilled (success data), w') ->
  exists t,
    find (drizzle.eq schema.passwordResetTokens.tokenHash (sha256_hex token))
         (password_reset_token (db w)) = Some t
    /\ now w <= schema.passwordResetTokens.expiresAt t
    /\ sessionId data = entropy w (S (drawn w))
    /\ w' =
       {| db := {| user :=
                     map (fun r =>
                            if drizzle.eq schema.users.id
                                 (schema.passwordResetTokens.userId t) r
                            then with_passwordHash
                                   (password_hash_salted newPassword (entropy w (drawn w))) r
                            else r)
                         (user (db w));
                   session :=
                     (filter (fun r => negb (drizzle.eq schema.sessions.userId
                                                        (schema.passwordResetTokens.userId t) r))
                             (session (db w))
                      ++ [new_session (sessionId data)
                                      (schema.passwordResetTokens.userId t) (now w)])%list;
                   email_verification_code := email_verification_code (db w);
                   password_reset_token := password_reset_token (db w) |};
          now := now w; entropy := entropy w; drawn := S (S (drawn w)) |}.
Proof.
  unfold AuthService.resetPassword. run.
  destruct (find _ _) as [t|]; [|discriminate].
  destruct (Z.ltb_spec (schema.passwordResetTokens.expiresAt t) (now w)); [discriminate|].
  destruct (String.eqb newPassword ""); run; [discriminate|].
  unfold Lucia.createSession. run.
  destruct (existsb _ _); [discriminate|].
  intros Hrun. injection Hrun as Hdata Hw'. subst data w'.
  exists t. cbn [sessionId].
  split; [reflexivity|]. split; [assumption|]. split; reflexivity.
Qed.

(** X15. After a successful [resetPassword], provided the runtime verifies
    a password against the hash it made of it, the token's user can [login]
    with their email and the new password: the call does not fail, and
    succeeds with the identifier drawn when that identifier is not in use. *)
Theorem resetPassword_then_login (w w' : World) (newPassword token email : string)
        (data : SessionData) (t : schema.passwordResetTokens.Row)
        (u : schema.users.Row) :
  AuthService.resetPassword newPassword token w = (Fulfilled (success data), w') ->
  find (drizzle.eq schema.passwordResetTokens.tokenHash (sha256_hex token))
       (password_reset_token (db w)) = Some t ->
  find (drizzle.eq schema.users.email email) (user (db w)) = Some u ->
  schema.users.id u = schema.passwordResetTokens.userId t ->
  password_verify newPassword (password_hash_salted newPassword (entropy w (drawn w)))
    = true ->
  forall later : Z,
    (forall e, fst (AuthService.login email newPassword (at_time later w'))
               <> Fulfilled (failure e))
    /\ (unused_session_id (entropy w' (drawn w')) (session (db w')) ->
        fst (AuthService.login email newPassword (at_time later w'))
        = Fulfilled (success {| sessionId := entropy w' (drawn w') |})).
Proof.
  intros Hrun Ht Hu Hid Hverify later.
  destruct (resetPassword_success _ _ _ _ _ Hrun) as [t' [Ht' [_ [_ Hw']]]].
  rewrite Ht in Ht'. injection Ht' as <-.
  assert (Hfind : find (drizzle.eq schema.users.email email) (user (db (at_time later w')))
                  = Some (with_passwordHash
                            (password_hash_salted newPassword (entropy w (drawn w))) u)).
  { rewrite Hw'. cbn [at_time db user].
    rewrite find_map_same.
    - rewrite Hu. cbn [option_map]. unfold drizzle.eq at 1.
      rewrite Hid, String.eqb_refl. reflexivity.
    - intros a. unfold drizzle.eq.
      destruct (String.eqb (schema.users.id a) _); reflexivity. }
  unfold AuthService.login. run. rewrite Hfind.
  cbn [with_passwordHash schema.users.passwordHash schema.users.id].
  rewrite Hverify. cbn [negb].
  split.
  - intros e. session_cases; discriminate.
  - intros Hfresh. rewrite createSession_run; [reflexivity|exact Hfresh].
Qed.

(** X16. After a successful [resetPassword], a session the token's user had
    before is refused by [validateSession] with [invalid_session], at
    whatever time (session ids being unique, and the new session not having
    drawn the old identifier). *)
Theorem resetPassword_revokes_sessions (w w' : World) (newPassword token : string)
        (data : SessionData) (t : schema.passwordResetTokens.Row)
        (s0 : schema.sessions.Row) :
  AuthService.resetPassword newPassword token w = (Fulfilled (success data), w') ->
  find (drizzle.eq schema.passwordResetTokens.tokenHash (sha256_hex token))
       (password_reset_token (db w)) = Some t ->
  NoDup (map schema.sessions.id (session (db w))) ->
  In s0 (session (db w)) ->
  schema.sessions.userId s0 = schema.passwordResetTokens.userId t ->
  schema.sessions.id s0 <> sessionId data ->
  forall later : Z,
    fst (AuthService.validateSession (schema.sessions.id s0) (at_time later w'))
    = Fulfilled (failure invalid_session).
Proof.
  intros Hrun Ht Hnodup Hs0 Huid Hsid later.
  destruct (resetPassword_success _ _ _ _ _ Hrun) as [t' [Ht' [_ [_ Hw']]]].
  rewrite Ht in Ht'. injection Ht' as <-.
  unfold AuthService.validateSession, Lucia.validateSession, Lucia.getSessionAndUser.
  run. rewrite Hw'. cbn [at_time db session].
  rewrite find_absent; [reflexivity|].
  intros r Hr. unfold drizzle.eq at 1. apply String.eqb_neq. intros E.
  apply in_app_iff in Hr. destruct Hr as [Hr|[<-|[]]].
  - apply filter_In in Hr. destruct Hr as [Hin Hother].
    assert (r = s0) by exact (unique_key _ _ _ _ Hnodup Hin Hs0 E). subst r.
    unfold drizzle.eq in Hother. rewrite Huid, String.eqb_refl in Hother. discriminate.
  - cbn in E. congruence.
Qed.

End Compositions.

(** ** What every method keeps *)

Lemma keeps_ret {A} (R : Database -> Database -> Prop) (a : A) :
  (forall d, R d d) -> keeps R (ret a).
Proof. intros Hrefl w. apply Hrefl. Qed.

Lemma keeps_read {A} (R : Database -> Database -> Prop) (m : Async A) :
  (forall d, R d d) -> (forall w, db (snd (m w)) = db w) -> keeps R m.
Proof. intros Hrefl Hread w. rewrite Hread. apply Hrefl. Qed.

Lemma keeps_bind {A B} (R : Database -> Database -> Prop)
      (m : Async A) (k : A -> Async B) :
  (forall d1 d2 d3, R d1 d2 -> R d2 d3 -> R d1 d3) ->
  keeps R m -> (forall a, keeps R (k a)) -> keeps R (bind m k).
Proof.
  intros Htrans Hm Hk w. unfold bind. specialize (Hm w).
  destruct (m w) as [[a|e] w1]; cbn [snd] in *; [|exact Hm].
  exact (Htrans _ _ _ Hm (Hk a w1)).
Qed.

Lemma keeps_try_catch {A} (R : Database -> Database -> Prop)
      (m : Async A) (handler : Exception -> Async A) :
  (forall d1 d2 d3, R d1 d2 -> R d2 d3 -> R d1 d3) ->
  keeps R m -> (forall e, keeps R (handler e)) -> keeps R (try_catch m handler).
Proof.
  intros Htrans Hm Hh w. unfold try_catch. specialize (Hm w).
  destruct (m w) as [[a|e] w1]; cbn [snd] in *; [exact Hm|].
  exact (Htrans _ _ _ Hm (Hh e w1)).
Qed.

Section Keeps.
Context {emailServiceInterface : EmailServiceInterface} {bun : BunRuntime}.
Variable R : Database -> Database -> Prop.
Hypothesis R_refl : forall d, R d d.
Hypothesis R_trans : forall d1 d2 d3, R d1 d2 -> R d2 d3 -> R d1 d3.
Hypothesis delete_sessions : forall p, keeps R (drizzle.delete tables.sessions p).
Hypothesis delete_codes : forall p, keeps R (drizzle.delete tables.emailVerificationCodes p).
Hypothesis delete_tokens : forall p, keeps R (drizzle.delete tables.passwordResetTokens p).
Hypothesis insert_users : forall v, keeps R (drizzle.insert tables.users v).
Hypothesis insert_sessions : forall v, keeps R (drizzle.insert tables.sessions v).
Hypothesis insert_codes : forall v, keeps R (drizzle.insert tables.emailVerificationCodes v).
Hypothesis insert_tokens : forall v, keeps R (drizzle.insert tables.passwordResetTokens v).
Hypothesis update_verified :
  forall p, keeps R (drizzle.update tables.users set_emailVerified p).
Hypothesis update_password :
  forall h p, keeps R (drizzle.update tables.users (with_passwordHash h) p).
Hypothesis update_expiry :
  forall e p, keeps R (drizzle.update tables.sessions (set_expiresAt e) p).

Ltac keeps_step :=
  first
    [ apply keeps_ret; exact R_refl
    | apply delete_sessions | apply delete_codes | apply delete_tokens
    | apply insert_users | apply insert_sessions | apply insert_codes
    | apply insert_tokens
    | apply update_verified | apply update_password | apply update_expiry
    | apply keeps_read; [exact R_refl | intros; reflexivity]
    | apply keeps_bind; [exact R_trans | | intros ?]
    | apply keeps_try_catch; [exact R_trans | | intros ?]
    | match goal with
      | |- keeps _ (match ?x with _ => _ end) => destruct x
      | |- keeps _ (let (_, _) := ?x in _) => destruct x
      end ].

Ltac keeps_all :=
  unfold AuthService.createEmailVerificationCode, AuthService.checkEmailCode,
    AuthService.createPasswordResetToken,
    Lucia.validateSession, Lucia.getSessionAndUser, Lucia.createSession,
    Lucia.invalidateSession, Lucia.invalidateUserSessions,
    Lucia.generateIdFromEntropySize, Bun.password_hash,
    oslo.createDate, oslo.isWithinExpirationDate, oslo.generateRandomString;
  repeat keeps_step.

Lemma validateSession_keeps sessionId : keeps R (AuthService.validateSession sessionId).
Proof. unfold AuthService.validateSession. keeps_all. Qed.

Lemma signup_keeps email password : keeps R (AuthService.signup email password).
Proof. unfold AuthService.signup. keeps_all. Qed.

Lemma login_keeps email password : keeps R (AuthService.login email password).
Proof. unfold AuthService.login. keeps_all. Qed.

Lemma createEmailVerificationCode_keeps userId email :
  keeps R (AuthService.createEmailVerificationCode userId email).
Proof. keeps_all. Qed.

Lemma verifyEmailCode_keeps usr code : keeps R (AuthService.verifyEmailCode usr code).
Proof. unfold AuthService.verifyEmailCode. keeps_all. Qed.

Lemma logout_keeps sessionId : keeps R (AuthService.logout sessionId).
Proof. unfold AuthService.logout. keeps_all. Qed.

Lemma resetPasswordRequest_keeps domain email :
  keeps R (AuthService.resetPasswordRequest domain email).
Proof. unfold AuthService.resetPasswordRequest. keeps_all. Qed.

Lemma resetPassword_keeps newPassword token :
  keeps R (AuthService.resetPassword newPassword token).
Proof. unfold AuthService.resetPassword. keeps_all. Qed.

End Keeps.


Section Invariants.
Context {emailServiceInterface : EmailServiceInterface} {bun : BunRuntime}.

Lemma unique_after_delete {R K} (key : R -> K) (where_ : R -> bool) (rows : list R) :
  NoDup (map key rows) -> NoDup (map key (filter where_ rows)).
Proof.
  induction rows as [|r rows IH]; intros Hnd; [constructor|].
  simpl in Hnd. inversion Hnd as [|? ? Hnotin Hnd']; subst. simpl.
  destruct (where_ r); [|auto]. simpl. constructor; [|auto].
  intros Hin. apply Hnotin. apply in_map_iff in Hin. destruct Hin as [x [Hx Hin]].
  apply filter_In in Hin. apply in_map_iff. exists x. tauto.
Qed.

Lemma unique_after_insert {A B} (f : A -> B) (l : list A) (x : A) :
  NoDup (map f l) -> (forall r, In r l -> f r <> f x) -> NoDup (map f (l ++ [x])).
Proof.
  induction l as [|a l IH]; intros Hnd Hnew; simpl.
  - constructor; [intros []|constructor].
  - simpl in Hnd. inversion Hnd as [|? ? Hnotin Hnd']; subst. constructor.
    + rewrite map_app, in_app_iff. intros [Hin|[Hin|[]]]; [auto|].
      apply (Hnew a); [now left|congruence].
    + apply IH; [exact Hnd'|]. intros r Hr. apply Hnew. now right.
Qed.

Lemma column_after_update {A B} (f : A -> B) (set : A -> A) (p : A -> bool) (l : list A) :
  (forall r, f (set r) = f r) ->
  map f (map (fun r => if p r then set r else r) l) = map f l.
Proof.
  intros Hset. rewrite map_map. apply map_ext. intros r.
  destruct (p r); [apply Hset|reflexivity].
Qed.

(** X17. Every method keeps the PRIMARY KEY and UNIQUE constraints of the
    schema, whether it fulfils or is rejected by the store. *)
Theorem consistent_kept (w : World) :
  consistent (db w) ->
  (forall sessionId, consistent (db (snd (AuthService.validateSession sessionId w))))
  /\ (forall email password, consistent (db (snd (AuthService.signup email password w))))
  /\ (forall email password, consistent (db (snd (AuthService.login email password w))))
  /\ (forall userId email,
        consistent (db (snd (AuthService.createEmailVerificationCode userId email w))))
  /\ (forall usr code, consistent (db (snd (AuthService.verifyEmailCode usr code w))))
  /\ (forall sessionId, consistent (db (snd (AuthService.logout sessionId w))))
  /\ (forall domain email,
        consistent (db (snd (AuthService.resetPasswordRequest domain email w))))
  /\ (forall newPassword token,
        consistent (db (snd (AuthService.resetPassword newPassword token w)))).
Proof.
  intros Hw.
  set (R := fun d d' : Database => consistent d -> consistent d').
  assert (R_refl : forall d, R d d) by (intros d H; exact H).
  assert (R_trans : forall d1 d2 d3, R d1 d2 -> R d2 d3 -> R d1 d3)
    by (intros d1 d2 d3 H12 H23 H; auto).
  assert (delete_sessions : forall p, keeps R (drizzle.delete tables.sessions p)).
  { intros p. written. intros [Hu [Hs [Hc [Hcu [Ht Htu]]]]].
    repeat split; cbn; auto using unique_after_delete. }
  assert (delete_codes :
            forall p, keeps R (drizzle.delete tables.emailVerificationCodes p)).
  { intros p. written. intros [Hu [Hs [Hc [Hcu [Ht Htu]]]]].
    repeat split; cbn; auto using unique_after_delete. }
  assert (delete_tokens :
            forall p, keeps R (drizzle.delete tables.passwordResetTokens p)).
  { intros p. written. intros [Hu [Hs [Hc [Hcu [Ht Htu]]]]].
    repeat split; cbn; auto using unique_after_delete. }
  assert (insert_users : forall v, keeps R (drizzle.insert tables.users v)).
  { intros v. written; [apply R_refl|]. intros [Hu [Hs [Hc [Hcu [Ht Htu]]]]].
    repeat split; cbn; auto. apply unique_after_insert; [exact Hu|].
    intros r Hr E. pose proof (existsb_none _ _ Hclash r Hr) as H.
    cbn in H. apply String.eqb_neq in H. cbn in E. congruence. }
  assert (insert_sessions : forall v, keeps R (drizzle.insert tables.sessions v)).
  { intros v. written; [apply R_refl|]. intros [Hu [Hs [Hc [Hcu [Ht Htu]]]]].
    repeat split; cbn; auto. apply unique_after_insert; [exact Hs|].
    intros r Hr E. pose proof (existsb_none _ _ Hclash r Hr) as H.
    cbn in H. apply String.eqb_neq in H. cbn in E. congruence. }
  assert (insert_codes :
            forall v, keeps R (drizzle.insert tables.emailVerificationCodes v)).
  { intros v. written; [apply R_refl|]. intros [Hu [Hs [Hc [Hcu [Ht Htu]]]]].
    repeat split; cbn; auto; (apply unique_after_insert; [assumption|]);
      intros r Hr E; pose proof (existsb_none _ _ Hclash r Hr) as H;
      cbn in H; apply orb_false_iff in H; destruct H as [Hid Huid];
      [apply Z.eqb_neq in Hid|apply String.eqb_neq in Huid]; cbn in E; congruence. }
  assert (insert_tokens :
            forall v, keeps R (drizzle.insert tables.passwordResetTokens v)).
  { intros v. written; [apply R_refl|]. intros [Hu [Hs [Hc [Hcu [Ht Htu]]]]].
    repeat split; cbn; auto; (apply unique_after_insert; [assumption|]);
      intros r Hr E; pose proof (existsb_none _ _ Hclash r Hr) as H;
      cbn in H; apply orb_false_iff in H; destruct H as [Hid Huid];
      apply String.eqb_neq in Hid, Huid; cbn in E; congruence. }
  assert (update_verified :
            forall p, keeps R (drizzle.update tables.users set_emailVerified p)).
  { intros p. written. intros [Hu [Hs [Hc [Hcu [Ht Htu]]]]].
    repeat split; cbn; auto. rewrite column_after_update; [exact Hu|reflexivity]. }
  assert (update_password :
            forall h p, keeps R (drizzle.update tables.users (with_passwordHash h) p)).
  { intros h p. written. intros [Hu [Hs [Hc [Hcu [Ht Htu]]]]].
    repeat split; cbn; auto. rewrite column_after_update; [exact Hu|reflexivity]. }
  assert (update_expiry :
            forall e p, keeps R (drizzle.update tables.sessions (set_expiresAt e) p)).
  { intros e p. written. intros [Hu [Hs [Hc [Hcu [Ht Htu]]]]].
    repeat split; cbn; auto. rewrite column_after_update; [exact Hs|reflexivity]. }
  repeat apply conj; intros.
  - apply (validateSession_keeps R); auto.
  - apply (signup_keeps R); auto.
  - apply (login_keeps R); auto.
  - apply (createEmailVerificationCode_keeps R); auto.
  - apply (verifyEmailCode_keeps R); auto.
  - apply (logout_keeps R); auto.
  - apply (resetPasswordRequest_keeps R); auto.
  - apply (resetPassword_keeps R); auto.
Qed.

Lemma accounts_kept_refl (d : Database) : accounts_kept d d.
Proof. intros u Hu. exists u. auto. Qed.

Lemma accounts_kept_trans (d1 d2 d3 : Database) :
  accounts_kept d1 d2 -> accounts_kept d2 d3 -> accounts_kept d1 d3.
Proof.
  intros H12 H23 u Hu.
  destruct (H12 u Hu) as [u2 [Hu2 [Hid2 [Hmail2 Hv2]]]].
  destruct (H23 u2 Hu2) as [u3 [Hu3 [Hid3 [Hmail3 Hv3]]]].
  exists u3. repeat split; try congruence. auto.
Qed.

Lemma accounts_kept_same_users (d d' : Database) :
  user d' = user d -> accounts_kept d d'.
Proof. intros E u Hu. exists u. rewrite E. auto. Qed.

Lemma accounts_kept_update (set : schema.users.Row -> schema.users.Row)
      (p : schema.users.Row -> bool) :
  (forall r, schema.users.id (set r) = schema.users.id r
             /\ schema.users.email (set r) = schema.users.email r
             /\ (schema.users.emailVerified r = true ->
                 schema.users.emailVerified (set r) = true)) ->
  keeps accounts_kept (drizzle.update tables.users set p).
Proof.
  intros Hset. written. intros u Hu.
  exists (if p u then set u else u). split.
  - apply in_map_iff. exists u. auto.
  - destruct (p u); [apply Hset|auto].
Qed.

(** X19. No method removes an account, changes its id or its email, or
    takes back its verification: every user stored before a call is stored
    after it under the same id and email, verified if it was. *)
Theorem accounts_never_lost (w : World) :
  (forall sessionId,
     accounts_kept (db w) (db (snd (AuthService.validateSession sessionId w))))
  /\ (forall email password,
        accounts_kept (db w) (db (snd (AuthService.signup email password w))))
  /\ (forall email password,
        accounts_kept (db w) (db (snd (AuthService.login email password w))))
  /\ (forall userId email,
        accounts_kept (db w)
          (db (snd (AuthService.createEmailVerificationCode userId email w))))
  /\ (forall usr code,
        accounts_kept (db w) (db (snd (AuthService.verifyEmailCode usr code w))))
  /\ (forall sessionId,
        accounts_kept (db w) (db (snd (AuthService.logout sessionId w))))
  /\ (forall domain email,
        accounts_kept (db w) (db (snd (AuthService.resetPasswordRequest domain email w))))
  /\ (forall newPassword token,
        accounts_kept (db w) (db (snd (AuthService.resetPassword newPassword token w)))).
Proof.
  pose proof accounts_kept_refl as R_refl.
  pose proof accounts_kept_trans as R_trans.
  assert (delete_sessions : forall p, keeps accounts_kept (drizzle.delete tables.sessions p))
    by (intros p; written; apply accounts_kept_same_users; reflexivity).
  assert (delete_codes :
            forall p, keeps accounts_kept (drizzle.delete tables.emailVerificationCodes p))
    by (intros p; written; apply accounts_kept_same_users; reflexivity).
  assert (delete_tokens :
            forall p, keeps accounts_kept (drizzle.delete tables.passwordResetTokens p))
    by (intros p; written; apply accounts_kept_same_users; reflexivity).
  assert (insert_users : forall v, keeps accounts_kept (drizzle.insert tables.users v)).
  { intros v. written; [apply R_refl|]. intros u Hu. exists u.
    split; [apply in_app_iff; now left|auto]. }
  assert (insert_sessions : forall v, keeps accounts_kept (drizzle.insert tables.sessions v))
    by (intros v; written; apply accounts_kept_same_users; reflexivity).
  assert (insert_codes :
            forall v, keeps accounts_kept (drizzle.insert tables.emailVerificationCodes v))
    by (intros v; written; apply accounts_kept_same_users; reflexivity).
  assert (insert_tokens :
            forall v, keeps accounts_kept (drizzle.insert tables.passwordResetTokens v))
    by (intros v; written; apply accounts_kept_same_users; reflexivity).
  assert (update_verified :
            forall p, keeps accounts_kept (drizzle.update tables.users set_emailVerified p))
    by (intros p; apply accounts_kept_update; intros r; cbn; auto).
  assert (update_password :
            forall h p, keeps accounts_kept
                          (drizzle.update tables.users (with_passwordHash h) p))
    by (intros h p; apply accounts_kept_update; intros r; cbn; auto).
  assert (update_expiry :
            forall e p, keeps accounts_kept
                          (drizzle.update tables.sessions (set_expiresAt e) p))
    by (intros e p; written; apply accounts_kept_same_users; reflexivity).
  repeat apply conj; intros.
  - apply (validateSession_keeps accounts_kept); auto.
  - apply (signup_keeps accounts_kept); auto.
  - apply (login_keeps accounts_kept); auto.
  - apply (createEmailVerificationCode_keeps accounts_kept); auto.
  - apply (verifyEmailCode_keeps accounts_kept); auto.
  - apply (logout_keeps accounts_kept); auto.
  - apply (resetPasswordRequest_keeps accounts_kept); auto.
  - apply (resetPassword_keeps accounts_kept); auto.
Qed.

(** X20. Who writes the table of users.  [validateSession], [login],
    [createEmailVerificationCode], [logout] and [resetPasswordRequest] leave
    it as it was; [verifyEmailCode] can change [emailVerified] only;
    [resetPassword] can change [passwordHash] only. *)
Theorem user_table_writers (w : World) :
  (forall sessionId,
     user (db (snd (AuthService.validateSession sessionId w))) = user (db w))
  /\ (forall email password,
        user (db (snd (AuthService.login email password w))) = user (db w))
  /\ (forall userId email,
        user (db (snd (AuthService.createEmailVerificationCode userId email w)))
        = user (db w))
  /\ (forall sessionId,
        user (db (snd (AuthService.logout sessionId w))) = user (db w))
  /\ (forall domain email,
        user (db (snd (AuthService.resetPasswordRequest domain email w))) = user (db w))
  /\ (forall usr code,
        map (fun u => (schema.users.id u, schema.users.email u,
                       schema.users.passwordHash u, schema.users.createdAt u))
            (user (db (snd (AuthService.verifyEmailCode usr code w))))
        = map (fun u => (schema.users.id u, schema.users.email u,
                         schema.users.passwordHash u, schema.users.createdAt u))
              (user (db w)))
  /\ (forall newPassword token,
        map (fun u => (schema.users.id u, schema.users.email u,
                       schema.users.emailVerified u, schema.users.createdAt u))
            (user (db (snd (AuthService.resetPassword newPassword token w))))
        = map (fun u => (schema.users.id u, schema.users.email u,
                         schema.users.emailVerified u, schema.users.createdAt u))
              (user (db w))).
Proof.
  repeat apply conj; intros.
  - apply (validateSession_keeps (fun d d' => user d' = user d));
      framed.
  - apply (login_keeps (fun d d' => user d' = user d));
      framed.
  - apply (createEmailVerificationCode_keeps (fun d d' => user d' = user d));
      framed.
  - apply (logout_keeps (fun d d' => user d' = user d));
      framed.
  - apply (resetPasswordRequest_keeps (fun d d' => user d' = user d));
      framed.
  - apply (verifyEmailCode_keeps
             (fun d d' =>
                map (fun u => (schema.users.id u, schema.users.email u,
                               schema.users.passwordHash u, schema.users.createdAt u))
                    (user d')
                = map (fun u => (schema.users.id u, schema.users.email u,
                                 schema.users.passwordHash u, schema.users.createdAt u))
                      (user d)));
      first [framed | intros p; written; apply column_after_update; reflexivity].
  - apply (resetPassword_keeps
             (fun d d' =>
                map (fun u => (schema.users.id u, schema.users.email u,
                               schema.users.emailVerified u, schema.users.createdAt u))
                    (user d')
                = map (fun u => (schema.users.id u, schema.users.email u,
                                 schema.users.emailVerified u, schema.users.createdAt u))
                      (user d)));
      first [framed | intros h p; written; apply column_after_update; reflexivity].
Qed.

(** X21. Who leaves the other tables alone.  The reset tokens are written
    by [resetPasswordRequest] only; the verification codes are untouched by
    [validateSession], [login], [logout], [resetPasswordRequest] and
    [resetPassword]; and [resetPasswordRequest] writes no session. *)
Theorem other_tables_untouched (w : World) :
  (* the table of reset tokens is written by [resetPasswordRequest] alone *)
  ((forall sessionId,
      password_reset_token (db (snd (AuthService.validateSession sessionId w)))
      = password_reset_token (db w))
   /\ (forall email password,
         password_reset_token (db (snd (AuthService.signup email password w)))
         = password_reset_token (db w))
   /\ (forall email password,
         password_reset_token (db (snd (AuthService.login email password w)))
         = password_reset_token (db w))
   /\ (forall usr code,
         password_reset_token (db (snd (AuthService.verifyEmailCode usr code w)))
         = password_reset_token (db w))
   /\ (forall sessionId,
         password_reset_token (db (snd (AuthService.logout sessionId w)))
         = password_reset_token (db w)))
  /\
  (* the table of verification codes is left alone by these *)
  ((forall sessionId,
      email_verification_code (db (snd (AuthService.validateSession sessionId w)))
      = email_verification_code (db w))
   /\ (forall email password,
         email_verification_code (db (snd (AuthService.login email password w)))
         = email_verification_code (db w))
   /\ (forall sessionId,
         email_verification_code (db (snd (AuthService.logout sessionId w)))
         = email_verification_code (db w))
   /\ (forall domain email,
         email_verification_code (db (snd (AuthService.resetPasswordRequest domain email w)))
         = email_verification_code (db w))
   /\ (forall newPassword token,
         email_verification_code (db (snd (AuthService.resetPassword newPassword token w)))
         = email_verification_code (db w)))
  /\
  (* and [resetPasswordRequest] creates or ends no session *)
  (forall domain email,
     session (db (snd (AuthService.resetPasswordRequest domain email w)))
     = session (db w)).
Proof.
  split; [|split]; repeat apply conj; intros.
  - apply (validateSession_keeps
             (fun d d' => password_reset_token d' = password_reset_token d));
      framed.
  - apply (signup_keeps (fun d d' => password_reset_token d' = password_reset_token d));
      framed.
  - apply (login_keeps (fun d d' => password_reset_token d' = password_reset_token d));
      framed.
  - apply (verifyEmailCode_keeps
             (fun d d' => password_reset_token d' = password_reset_token d));
      framed.
  - apply (logout_keeps (fun d d' => password_reset_token d' = password_reset_token d));
      framed.
  - apply (validateSession_keeps
             (fun d d' => email_verification_code d' = email_verification_code d));
      framed.
  - apply (login_keeps
             (fun d d' => email_verification_code d' = email_verification_code d));
      framed.
  - apply (logout_keeps
             (fun d d' => email_verification_code d' = email_verification_code d));
      framed.
  - apply (resetPasswordRequest_keeps
             (fun d d' => email_verification_code d' = email_verification_code d));
      framed.
  - apply (resetPassword_keeps
             (fun d d' => email_verification_code d' = email_verification_code d));
      framed.
  - apply (resetPasswordRequest_keeps (fun d d' => session d' = session d));
      framed.
Qed.

Lemma has_user_snoc users x uid : has_user users uid -> has_user (users ++ [x]) uid.
Proof. intros [u [Hu Hid]]. exists u. split; [apply in_app_iff; now left|exact Hid]. Qed.

Lemma has_user_update users (set : schema.users.Row -> schema.users.Row)
      (p : schema.users.Row -> bool) uid :
  (forall r, schema.users.id (set r) = schema.users.id r) ->
  has_user users uid ->
  has_user (map (fun r => if p r then set r else r) users) uid.
Proof.
  intros Hset [u [Hu Hid]]. exists (if p u then set u else u). split.
  - apply in_map_iff. exists u. auto.
  - destruct (p u); [rewrite Hset|]; exact Hid.
Qed.

Lemma has_user_found (q : schema.users.Row -> bool) users u :
  find q users = Some u -> has_user users (schema.users.id u).
Proof. intros H. apply find_some in H. exists u. tauto. Qed.

(** X18. Every method keeps the FOREIGN KEY clauses of the schema, which
    the store itself does not check: if every session, code and reset token
    belongs to a stored user before a call, so it does after
    ([createEmailVerificationCode] being called for a stored user). *)
Theorem referential_kept (w : World) :
  referential (db w) ->
  (forall sessionId, referential (db (snd (AuthService.validateSession sessionId w))))
  /\ (forall email password, referential (db (snd (AuthService.signup email password w))))
  /\ (forall email password, referential (db (snd (AuthService.login email password w))))
  /\ (forall userId email,
        has_user (user (db w)) userId ->
        referential (db (snd (AuthService.createEmailVerificationCode userId email w))))
  /\ (forall usr code, referential (db (snd (AuthService.verifyEmailCode usr code w))))
  /\ (forall sessionId, referential (db (snd (AuthService.logout sessionId w))))
  /\ (forall domain email,
        referential (db (snd (AuthService.resetPasswordRequest domain email w))))
  /\ (forall newPassword token,
        referential (db (snd (AuthService.resetPassword newPassword token w)))).
Proof.
  intros [Hs [Hc Ht]]. repeat apply conj.
  - intros sessionId.
    unfold AuthService.validateSession, Lucia.validateSession, Lucia.getSessionAndUser.
    run.
    destruct (find _ (session (db w))) as [s0|]; run; [|repeat split; auto].
    destruct (find _ (user (db w))) as [u|]; run.
    + destruct (now w <? _); cbn [negb]; run.
      * destruct (negb _); cbn [Lucia.fresh]; run; repeat split; cbn; auto.
        intros r Hr. traced Hr; cbn; auto.
      * repeat split; cbn; auto. intros r Hr. traced Hr. auto.
    + repeat split; cbn; auto. intros r Hr. traced Hr. auto.
  - intros email password.
    unfold AuthService.signup, AuthService.createEmailVerificationCode,
      Lucia.createSession.
    run.
    destruct (find _ _); run; [repeat split; auto|].
    destruct (String.eqb password ""); run; [repeat split; auto|].
    destruct (existsb _ (user (db w))); run; [repeat split; auto|].
    destruct (existsb _ (filter _ _)); run;
      [|destruct (is_failure _); run;
        destruct (existsb _ (session (db w))); cbn [fst snd]];
      (repeat split; cbn [db user session email_verification_code password_reset_token];
       intros r Hr; traced Hr; cbn;
       first [ solve [apply has_user_snoc; auto]
             | eexists; split; [apply in_app_iff; right; left; reflexivity|reflexivity] ]).
  - intros email password. unfold AuthService.login, Lucia.createSession. run.
    destruct (find _ _) as [u|] eqn:Hu; run; [|repeat split; auto].
    destruct (negb _); run; [repeat split; auto|].
    destruct (existsb _ _); run; [repeat split; auto|].
    repeat split; cbn [db user session email_verification_code password_reset_token];
      auto.
    intros r Hr. traced Hr; cbn; eauto using has_user_found.
  - intros userId email Huser. rewrite createEmailVerificationCode_run. cbn [snd].
    repeat split; cbn [db user session email_verification_code password_reset_token];
      auto.
    intros r Hr. traced Hr; cbn; auto.
  - intros usr code.
    unfold AuthService.verifyEmailCode, AuthService.checkEmailCode, Lucia.createSession.
    run.
    destruct (find _ _) as [row|] eqn:Hrow; run; [|repeat split; auto].
    destruct (negb (String.eqb code _)); run; [repeat split; auto|].
    assert (Husr : has_user (user (db w)) (types.id usr)).
    { apply find_some in Hrow. destruct Hrow as [Hin Huid].
      apply String.eqb_eq in Huid. rewrite <- Huid. auto. }
    destruct (_ <? _); run;
      [|destruct (negb _); run;
        [|destruct (existsb _ _); cbn [fst snd]]];
      (repeat split; cbn [db user session email_verification_code password_reset_token];
       auto; intros r Hr; traced Hr; cbn;
       first [ solve [auto]
             | apply (has_user_update (user (db w)) set_emailVerified
                        (drizzle.eq schema.users.id (types.id usr)));
               [reflexivity|auto] ]).
  - intros sessionId. unfold AuthService.logout, try_catch, Lucia.invalidateSession. run.
    repeat split; cbn [db user session email_verification_code password_reset_token];
      auto.
    intros r Hr. traced Hr. auto.
  - intros domain email.
    unfold AuthService.resetPasswordRequest, AuthService.createPasswordResetToken. run.
    destruct (find _ _) as [u|] eqn:Hu; run; [|repeat split; auto].
    destruct (existsb _ _); run;
      [|destruct (is_failure _); cbn [fst snd]];
      (repeat split; cbn [db user session email_verification_code password_reset_token];
       auto; intros r Hr; traced Hr; cbn; eauto using has_user_found).
  - intros newPassword token. unfold AuthService.resetPassword, Lucia.createSession. run.
    destruct (find _ _) as [t|] eqn:Htoken; run; [|repeat split; auto].
    destruct (_ <? _); run; [repeat split; auto|].
    assert (Husr : has_user (user (db w)) (schema.passwordResetTokens.userId t)).
    { apply find_some in Htoken. destruct Htoken as [Hin _]. auto. }
    destruct (String.eqb newPassword ""); run;
      [repeat split; cbn [db user session email_verification_code password_reset_token];
       auto; intros r Hr; traced Hr; auto|].
    destruct (existsb _ _); run;
      (repeat split; cbn [db user session email_verification_code password_reset_token];
       auto; intros r Hr; traced Hr; cbn;
       first [ solve [auto]
             | apply (has_user_update (user (db w))
                        (with_passwordHash
                           (password_hash_salted newPassword (entropy w (drawn w))))
                        (drizzle.eq schema.users.id (schema.passwordResetTokens.userId t)));
               [reflexivity|auto] ]).
Qed.

(** [validateSession] on a stored session of a stored user, before its
    expiry. *)
Lemma validateSession_live (w : World) (sessionId : string)
      (s0 : schema.sessions.Row) (u : schema.users.Row) :
  find (drizzle.eq schema.sessions.id sessionId) (session (db w)) = Some s0 ->
  find (drizzle.eq schema.users.id (schema.sessions.userId s0)) (user (db w)) = Some u ->
  now w < schema.sessions.expiresAt s0 ->
  AuthService.validateSession sessionId w =
    if now w <? schema.sessions.expiresAt s0 - fifteen_days
    then (Fulfilled (success {| user_of := Lucia.getUserAttributes u;
                                freshSessionId := None |}), w)
    else (Fulfilled (success {| user_of := Lucia.getUserAttributes u;
                                freshSessionId := Some sessionId |}),
          {| db := {| user := user (db w);
                      session :=
                        map (fun r => if drizzle.eq schema.sessions.id sessionId r
                                      then renewed (now w) r else r)
                            (session (db w));
                      email_verification_code := email_verification_code (db w);
                      password_reset_token := password_reset_token (db w) |};
             now := now w; entropy := entropy w; drawn := drawn w |}).
Proof.
  intros Hs Hu Hlive.
  assert (Hid : schema.sessions.id s0 = sessionId).
  { apply find_some in Hs. destruct Hs as [_ Hs]. apply String.eqb_eq. exact Hs. }
  unfold AuthService.validateSession, Lucia.validateSession, Lucia.getSessionAndUser.
  run. rewrite Hs. cbn [fst snd]. rewrite Hu.
  apply Z.ltb_lt in Hlive. rewrite Hlive. cbn [negb].
  rewrite half_lifetime.
  destruct (now w <? schema.sessions.expiresAt s0 - fifteen_days);
    cbn [negb fst snd Lucia.fresh Lucia.id]; [destruct w; reflexivity|].
  rewrite Hid. reflexivity.
Qed.

(** X6. A session that [validateSession] has just accepted is accepted
    again at the same instant, for the same user and with no
    [freshSessionId]: a renewal is not repeated. *)
Theorem validateSession_renews_once (w : World) (sessionId : string)
        (validated : ValidatedSession) :
  fst (AuthService.validateSession sessionId w) = Fulfilled (success validated) ->
  fst (AuthService.validateSession sessionId
         (snd (AuthService.validateSession sessionId w)))
  = Fulfilled (success {| user_of := user_of validated; freshSessionId := None |}).
Proof.
  intros Hfirst.
  destruct (find (drizzle.eq schema.sessions.id sessionId) (session (db w)))
    as [s0|] eqn:Hs.
  2:{ revert Hfirst.
      unfold AuthService.validateSession, Lucia.validateSession, Lucia.getSessionAndUser.
      run. rewrite Hs. discriminate. }
  destruct (find (drizzle.eq schema.users.id (schema.sessions.userId s0)) (user (db w)))
    as [u|] eqn:Hu.
  2:{ revert Hfirst.
      unfold AuthService.validateSession, Lucia.validateSession, Lucia.getSessionAndUser.
      run. rewrite Hs. cbn [fst snd]. rewrite Hu. discriminate. }
  destruct (Z.ltb_spec (now w) (schema.sessions.expiresAt s0)) as [Hlive|Hdead].
  2:{ revert Hfirst.
      unfold AuthService.validateSession, Lucia.validateSession, Lucia.getSessionAndUser.
      run. rewrite Hs. cbn [fst snd]. rewrite Hu.
      apply Z.ltb_ge in Hdead. rewrite Hdead. discriminate. }
  rewrite (validateSession_live _ _ _ _ Hs Hu Hlive) in *.
  destruct (Z.ltb_spec (now w) (schema.sessions.expiresAt s0 - fifteen_days))
    as [Hactive|Hidle]; cbn [fst snd] in *.
  - injection Hfirst as <-. cbn [user_of].
    rewrite (validateSession_live _ _ _ _ Hs Hu Hlive).
    apply Z.ltb_lt in Hactive. rewrite Hactive. reflexivity.
  - injection Hfirst as <-. cbn [user_of].
    pose proof (timestamp_bounds (now w + oslo.milliseconds Lucia.sessionExpiresIn)) as Hts.
    assert (Hlife : oslo.milliseconds Lucia.sessionExpiresIn = 2 * fifteen_days)
      by reflexivity.
    assert (Hlong : 1000 < fifteen_days) by reflexivity.
    match goal with
    | |- fst (AuthService.validateSession _ ?w1) = _ =>
        rewrite (validateSession_live w1 sessionId (renewed (now w) s0) u)
    end.
    + cbn [now renewed schema.sessions.expiresAt].
      destruct (Z.ltb_spec (now w)
                  (drizzle.timestamp (now w + oslo.milliseconds Lucia.sessionExpiresIn)
                   - fifteen_days)); [reflexivity|lia].
    + cbn [db session]. rewrite find_map_same.
      * rewrite Hs. cbn [option_map].
        apply find_some in Hs. destruct Hs as [_ Hs]. rewrite Hs. reflexivity.
      * intros a. unfold drizzle.eq.
        destruct (String.eqb (schema.sessions.id a) sessionId) eqn:E; cbn; exact E.
    + cbn [db user renewed schema.sessions.userId]. exact Hu.
    + cbn [now renewed schema.sessions.expiresAt]. lia.
Qed.

End Invariants.

(** ** More statements on explicit worlds *)

Section MoreOnExamples.
Import Example.
#[local] Existing Instance runtime.

Lemma registered_consistent : consistent registered.
Proof. repeat split; cbn; repeat constructor; cbn; intuition discriminate. Qed.

Lemma registered_referential : referential registered.
Proof.
  repeat split; intros r; listed; cbn;
    first [ exists alice; split; [now left|reflexivity]
          | exists bob; split; [right; now left|reflexivity] ].
Qed.

(** An unknown address at [login]. *)
Lemma failure_kinds_witness :
  fst (AuthService.login "nobody@test.com" "secret" early)
    = Fulfilled (failure user_not_found)
  /\ (user_not_found = user_not_found \/ user_not_found = invalid_credentials).
Proof.
  split; [reflexivity|].
  destruct (failure_kinds (emailServiceInterface := delivering) early)
    as [_ [_ [Hlogin _]]].
  apply (Hlogin "nobody@test.com" "secret"). reflexivity.
Defined.

(** A wrong password and an unknown token. *)
Lemma failures_without_effect_witness :
  snd (AuthService.login "alice@test.com" "wrong" early) = early
  /\ snd (AuthService.resetPassword "new" "unknown" early) = early.
Proof.
  split.
  - destruct (failures_without_effect (emailServiceInterface := delivering)
                early invalid_credentials) as [_ [Hlogin _]].
    apply Hlogin. reflexivity.
  - destruct (failures_without_effect (emailServiceInterface := delivering)
                early invalid_code) as [_ [_ [Hreset _]]].
    apply Hreset. vm_compute. reflexivity.
Defined.

(** carol signs up, and then tries again. *)
Lemma signup_twice_witness :
  fst (AuthService.signup (emailServiceInterface := delivering) "carol@test.com" "other"
         (at_time 9000
            (snd (AuthService.signup (emailServiceInterface := delivering)
                    "carol@test.com" "pw" early))))
  = Fulfilled (failure user_exists).
Proof.
  rewrite (signup_twice (emailServiceInterface := delivering)
             early _ "carol@test.com" "pw" {| sessionId := "r3" |});
    reflexivity.
Defined.

(** carol signs up, and then logs in. *)
Lemma signup_then_login_witness :
  fst (AuthService.login "carol@test.com" "pw"
         (at_time 9000
            (snd (AuthService.signup (emailServiceInterface := delivering)
                    "carol@test.com" "pw" early))))
  = Fulfilled (success {| sessionId := "r4" |}).
Proof.
  refine (proj2 (signup_then_login (emailServiceInterface := delivering)
                   early _ "carol@test.com" "pw" {| sessionId := "r3" |} _ _ 9000) _);
    try reflexivity.
  vm_compute. intros r. listed; discriminate.
Defined.

(** alice logs in and comes back a second later. *)
Lemma login_session_lifecycle_witness :
  fst (AuthService.validateSession "r0"
         (at_time 6000 (snd (AuthService.login "alice@test.com" "secret" early))))
  = Fulfilled (success {| user_of := alice_user; freshSessionId := None |}).
Proof.
  destruct (login_session_lifecycle early
              (snd (AuthService.login "alice@test.com" "secret" early))
              "alice@test.com" "secret" {| sessionId := "r0" |})
    as [u [Hu Hlife]].
  - reflexivity.
  - exact (proj1 registered_consistent).
  - injection Hu as <-.
    exact (f_equal fst (proj1 (Hlife 6000) ltac:(vm_compute; discriminate))).
Defined.

(** The short session of alice, validated twice in a row. *)
Lemma validateSession_renews_once_witness :
  fst (AuthService.validateSession "s-short"
         (snd (AuthService.validateSession "s-short" early)))
  = Fulfilled (success {| user_of := alice_user; freshSessionId := None |}).
Proof.
  apply (validateSession_renews_once early "s-short"
           {| user_of := alice_user; freshSessionId := Some "s-short" |}).
  reflexivity.
Defined.

(** alice is sent a new code while no mail can be sent. *)
Lemma createEmailVerificationCode_replaces_code_witness :
  List.length
    (filter (drizzle.eq schema.emailVerificationCodes.userId "u-alice")
            (email_verification_code
               (db (snd (AuthService.createEmailVerificationCode
                           (emailServiceInterface := failing)
                           "u-alice" "alice@test.com" early)))))
  = 1%nat.
Proof.
  destruct (createEmailVerificationCode_replaces_code
              (emailServiceInterface := failing) early "u-alice" "alice@test.com")
    as [_ [[row [Hrow _]] _]].
  rewrite Hrow. reflexivity.
Defined.

(** ... and presents it a second later. *)
Lemma createEmailVerificationCode_then_verifyEmailCode_witness :
  fst (AuthService.verifyEmailCode alice_user "r0"
         (at_time 6000
            (snd (AuthService.createEmailVerificationCode
                    (emailServiceInterface := failing)
                    "u-alice" "alice@test.com" early))))
  = Fulfilled (success {| sessionId := "r1" |}).
Proof.
  apply (createEmailVerificationCode_then_verifyEmailCode
           (emailServiceInterface := failing) early alice_user 6000).
  - vm_compute. discriminate.
  - intros r. listed; discriminate.
Defined.

(** A wrong code touches no user. *)
Lemma verifyEmailCode_failure_keeps_account_witness :
  user (db (snd (AuthService.verifyEmailCode alice_user "00000000" early)))
  = user (db early).
Proof.
  apply (proj1 (verifyEmailCode_failure_keeps_account early alice_user "00000000"
                  invalid_code Logic.eq_refl)).
Defined.

(** The code of alice, presented twice. *)
Lemma verifyEmailCode_single_use_witness :
  fst (AuthService.verifyEmailCode alice_user "12345678"
         (at_time 6000 (snd (AuthService.verifyEmailCode alice_user "12345678" early))))
  = Fulfilled (failure invalid_code).
Proof.
  rewrite (verifyEmailCode_single_use early alice_user "12345678" alice_code);
    try reflexivity.
  cbn. repeat constructor; cbn; intuition discriminate.
Defined.

(** alice asks for a reset while no mail can be sent. *)
Lemma resetPasswordRequest_send_failure_witness :
  fst (AuthService.resetPassword "new" "r0"
         (at_time 6000
            (snd (AuthService.resetPasswordRequest (emailServiceInterface := failing)
                    "https://test.com" "alice@test.com" early))))
  <> Fulfilled (failure invalid_code).
Proof.
  refine (proj2 (proj2 (resetPasswordRequest_send_failure
                          (emailServiceInterface := failing)
                          early "https://test.com" "alice@test.com" alice
                          (failure email_send_error) _ _ _)) 6000 "new").
  - reflexivity.
  - reflexivity.
  - vm_compute. reflexivity.
Defined.

(** alice asks for a reset, and then tries her earlier token. *)
Lemma resetPasswordRequest_supersedes_witness :
  fst (AuthService.resetPassword "new" "reset-token"
         (at_time 6000
            (snd (AuthService.resetPasswordRequest (emailServiceInterface := delivering)
                    "https://test.com" "alice@test.com" early))))
  = Fulfilled (failure invalid_code).
Proof.
  rewrite (proj2 (resetPasswordRequest_supersedes (emailServiceInterface := delivering)
                    (bun := runtime) early "https://test.com" "alice@test.com" alice alice_token
                    (success {| tokenId := "r0" |})
                    Logic.eq_refl (or_introl Logic.eq_refl) Logic.eq_refl
                    (proj1 (proj2 (proj2 (proj2 (proj2 registered_consistent)))))
                    ltac:(vm_compute; discriminate)
                    ltac:(vm_compute; reflexivity)));
    [reflexivity|vm_compute; reflexivity].
Defined.

(** alice resets her password and logs in with the new one. *)
Lemma resetPassword_then_login_witness :
  fst (AuthService.login "alice@test.com" "new"
         (at_time 6000 (snd (AuthService.resetPassword "new" "reset-token" early))))
  = Fulfilled (success {| sessionId := "r2" |}).
Proof.
  refine (proj2 (resetPassword_then_login early _ "new" "reset-token" "alice@test.com"
                   {| sessionId := "r1" |} alice_token alice _ _ _ _ _ 6000) _);
    try (vm_compute; reflexivity).
  vm_compute. intros r. listed; discriminate.
Defined.

(** ... and her short session is no longer accepted. *)
Lemma resetPassword_revokes_sessions_witness :
  fst (AuthService.validateSession "s-short"
         (at_time 6000 (snd (AuthService.resetPassword "new" "reset-token" early))))
  = Fulfilled (failure invalid_session).
Proof.
  apply (resetPassword_revokes_sessions early _ "new" "reset-token"
           {| sessionId := "r1" |} alice_token alice_short);
    try (vm_compute; reflexivity).
  - exact (proj1 (proj2 registered_consistent)).
  - left. reflexivity.
  - discriminate.
Defined.

(** The store stays consistent when carol signs up. *)
Lemma consistent_kept_witness :
  consistent (db (snd (AuthService.signup (emailServiceInterface := delivering)
                         "carol@test.com" "pw" early))).
Proof.
  exact (proj1 (proj2 (consistent_kept (emailServiceInterface := delivering) early
                         registered_consistent))
           "carol@test.com" "pw").
Defined.

(** ... and every row still has its user when alice logs in. *)
Lemma referential_kept_witness :
  referential (db (snd (AuthService.login "alice@test.com" "secret" early))).
Proof.
  exact (proj1 (proj2 (proj2 (referential_kept (emailServiceInterface := delivering)
                                early registered_referential)))
           "alice@test.com" "secret").
Defined.

End MoreOnExamples.
